(** * Reepy: response normalisation and derived metrics

    A shallow embedding of the response parsers of [src/ree_example.py]
    (and their copies in [notebooks/ree_notebook.py]), of the guard of
    [REEClient.to_dataframe] and the masking of the token in
    [reepi/api/client.py], of the functions of
    [reepi/utils/data_processing.py], of [get_logger] in
    [reepi/utils/logger.py] and of [load_data] in [reepi/app.py].

    Conventions of the embedding:
    - a decoded JSON payload is a value of [json]; a Python [dict] is an
      association list in insertion order (what [.items()] iterates);
    - a Python exception is the [Raise] branch of [exc];
    - the numbers of a payload are exact rationals ([Q]); the [value]
      column of a frame is modelled twice: in exact rationals ([Metrics]),
      for the properties that hold in exact arithmetic, and with its dtype
      ([Numeric]: [int64] with wrap-around, [float64] with rounding), for
      what the functions return;
    - a [pandas.DataFrame] built from a list of dictionaries is that list,
      in order; pandas makes the columns of the frame the union of their
      keys and fills the cells a dictionary lacks with [NaN]. *)

From Stdlib Require Import List String Ascii ZArith QArith Bool Lia.
From Stdlib Require Import Sorted Permutation OrderedTypeEx Floats.PrimFloat.
Import ListNotations.
Local Open Scope string_scope.

(** ** JSON-like values, as [json.loads] / [response.json()] produce them *)

#[local] Set Warnings "-register-all".

Inductive json : Type :=
| JNull : json
| JBool (b : bool)
| JNum (q : Q)
| JStr (s : string)
| JList (l : list json)
| JDict (d : list (string * json)).

(** ** Exceptions *)

Inductive error : Type :=
| KeyError (key : string)
| TypeError
| ValueError
| AttributeError.

Inductive exc (A : Type) : Type :=
| Ok (a : A)
| Raise (e : error).
Arguments Ok {A} a.
Arguments Raise {A} e.

Definition bind {A B} (m : exc A) (k : A -> exc B) : exc B :=
  match m with
  | Ok a => k a
  | Raise e => Raise e
  end.

Notation "x <- m ;; k" := (bind m (fun x => k))
  (at level 61, m at next level, right associativity).

Definition raises {A} (m : exc A) : Prop := exists e, m = Raise e.

(** ** Python operations on decoded JSON *)

Module Py.

(** [d[key]] on a [dict]: the first binding of [key]. *)
Fixpoint lookup (key : string) (d : list (string * json)) : option json :=
  match d with
  | [] => None
  | (k, v) :: rest => if String.eqb key k then Some v else lookup key rest
  end.

(** [x[key]] with a string [key]: only a [dict] can be subscripted by a
    string; a missing key is a [KeyError], any other receiver a [TypeError]. *)
Definition getitem (x : json) (key : string) : exc json :=
  match x with
  | JDict d =>
      match lookup key d with
      | Some v => Ok v
      | None => Raise (KeyError key)
      end
  | _ => Raise TypeError
  end.

(** Truth value of an object, as tested by [not x] and [if x]. *)
Definition truthy (x : json) : bool :=
  match x with
  | JNull => false
  | JBool b => b
  | JNum q => negb (Qeq_bool q 0)
  | JStr s => negb (String.eqb s "")
  | JList l => match l with [] => false | _ => true end
  | JDict d => match d with [] => false | _ => true end
  end.

(** [sub in s] on strings: substring test. *)
Fixpoint substring_in (sub s : string) : bool :=
  String.prefix sub s ||
  match s with
  | EmptyString => false
  | String _ rest => substring_in sub rest
  end.

Definition is_str (key : string) (x : json) : bool :=
  match x with
  | JStr s => String.eqb key s
  | _ => false
  end.

(** [key in x] with a string [key]: key membership for a [dict], element
    membership for a [list], substring test for a [str]; [None], numbers and
    booleans are not containers. *)
Definition contains (x : json) (key : string) : exc bool :=
  match x with
  | JDict d => Ok (match lookup key d with Some _ => true | None => false end)
  | JList l => Ok (existsb (is_str key) l)
  | JStr s => Ok (substring_in key s)
  | _ => Raise TypeError
  end.

(** The items a [for] loop visits: the elements of a [list], the keys of a
    [dict], the characters of a [str]; anything else is not iterable. *)
Fixpoint chars (s : string) : list json :=
  match s with
  | EmptyString => []
  | String c rest => JStr (String c EmptyString) :: chars rest
  end.

Definition iter (x : json) : exc (list json) :=
  match x with
  | JList l => Ok l
  | JDict d => Ok (map (fun kv => JStr (fst kv)) d)
  | JStr s => Ok (chars s)
  | _ => Raise TypeError
  end.

End Py.

(** A data frame built from a list of dictionaries: the list of the
    dictionaries handed to [pd.DataFrame], one for each row;
    [pd.DataFrame()] and [pd.DataFrame([])] are the empty frame. *)
Definition record : Type := list (string * json).
Definition DataFrame : Type := list record.
Definition empty_frame : DataFrame := [].

(** ** The response normaliser ([parse_generation_data]) *)

Module Normalizer.

(** Lines 82-87: one record per element of a list-shaped value. *)
Fixpoint list_records (datetime_str : json) (value_data : list json)
  : exc (list record) :=
  match value_data with
  | [] => Ok []
  | gen_type :: rest =>
      t <- Py.getitem gen_type "type" ;;
      v <- Py.getitem gen_type "value" ;;
      more <- list_records datetime_str rest ;;
      Ok ([("datetime", datetime_str); ("type", t); ("value", v)] :: more)
  end.

(** Lines 97-102: one record per item of a dictionary-shaped value. *)
Definition dict_records (datetime_str : json) (value_data : list (string * json))
  : list record :=
  map (fun kv => [("datetime", datetime_str);
                  ("type", JStr (fst kv));
                  ("value", snd kv)]) value_data.

(** Lines 76-102: the body of the loop for one entry of the values
    sequence.  [isinstance(x, (int, float))] also holds of a [bool]. *)
Definition entry_records (value : json) : exc (list record) :=
  datetime_str <- Py.getitem value "datetime" ;;
  value_data <- Py.getitem value "value" ;;
  match value_data with
  | JList l => list_records datetime_str l
  | JNum _ | JBool _ =>
      Ok [[("datetime", datetime_str); ("type", JStr "total");
           ("value", value_data)]]
  | JDict d => Ok (dict_records datetime_str d)
  | JStr _ | JNull => Ok []
  end.

(** Lines 74-102: the loop; the records accumulate in encounter order and
    the first exception aborts the call. *)
Fixpoint loop_records (values : list json) : exc (list record) :=
  match values with
  | [] => Ok []
  | value :: rest =>
      recs <- entry_records value ;;
      more <- loop_records rest ;;
      Ok (recs ++ more)%list
  end.

(** Lines 66-104. *)
Definition parse_generation_data (data : json) : exc DataFrame :=
  if negb (Py.truthy data) then Ok empty_frame
  else
    has <- Py.contains data "indicator" ;;
    if negb has then Ok empty_frame
    else
      indicator <- Py.getitem data "indicator" ;;
      values <- Py.getitem indicator "values" ;;
      items <- Py.iter values ;;
      loop_records items.

(** Lines 158-173: [parse_indicator_data], the scalar-series variant. *)
Fixpoint scalar_records (values : list json) : exc (list record) :=
  match values with
  | [] => Ok []
  | value :: rest =>
      d <- Py.getitem value "datetime" ;;
      v <- Py.getitem value "value" ;;
      more <- scalar_records rest ;;
      Ok ([("datetime", d); ("value", v)] :: more)
  end.

Definition parse_indicator_data (data : json) : exc DataFrame :=
  if negb (Py.truthy data) then Ok empty_frame
  else
    has <- Py.contains data "indicator" ;;
    if negb has then Ok empty_frame
    else
      indicator <- Py.getitem data "indicator" ;;
      values <- Py.getitem indicator "values" ;;
      items <- Py.iter values ;;
      scalar_records items.

End Normalizer.

(** ** The guard of [REEClient.to_dataframe] *)

Module Client.

Section ToDataFrame.

(** Lines 344-356 of [client.py]: the frame pandas builds from a non-empty
    values sequence, its date-time columns converted and the indicator's
    name and id added as columns.  It is taken as given: only the guards
    before it are modelled. *)
Variable frame_of_values : json -> json -> exc DataFrame.

(** Lines 320-344. *)
Definition to_dataframe (data : json) : exc DataFrame :=
  if negb (Py.truthy data) then Ok empty_frame
  else
    has <- Py.contains data "indicator" ;;
    if negb has then Ok empty_frame
    else
      indicator <- Py.getitem data "indicator" ;;
      has_values <- Py.contains indicator "values" ;;
      if negb has_values then Ok empty_frame
      else
        values <- Py.getitem indicator "values" ;;
        if negb (Py.truthy values) then Ok empty_frame
        else frame_of_values indicator values.

End ToDataFrame.

End Client.

(** ** Payloads used in the statements *)

(** [response_with data values]: [data] is a dictionary whose ["indicator"]
    entry is a dictionary whose ["values"] entry is the list [values]. *)
Definition response_with (data : json) (values : list json) : Prop :=
  exists d ind,
    data = JDict d /\
    Py.lookup "indicator" d = Some (JDict ind) /\
    Py.lookup "values" ind = Some (JList values).

(** The smallest such payload. *)
Definition response (values : list json) : json :=
  JDict [("indicator", JDict [("values", JList values)])].

(** The payload of the package's test of a response without values. *)
Definition indicator_without_values : json :=
  JDict [("indicator", JDict [("name", JStr "Test")])].

(** [x[key]], or [None] where the subscript raises. *)
Definition field (x : json) (key : string) : json :=
  match Py.getitem x key with
  | Ok v => v
  | Raise _ => JNull
  end.

(** An entry of the values sequence that carries both of its keys. *)
Definition has_keys (value : json) : Prop :=
  exists d v, Py.getitem value "datetime" = Ok d /\ Py.getitem value "value" = Ok v.

(** [isinstance(x, (int, float))] on decoded JSON. *)
Definition is_number (x : json) : bool :=
  match x with
  | JNum _ | JBool _ => true
  | _ => false
  end.

(** A value of none of the three shapes of the specification (a plain
    number, a sequence, a keyed mapping): a string, a null or a boolean. *)
Definition outside_three_shapes (x : json) : bool :=
  match x with
  | JStr _ | JNull | JBool _ => true
  | _ => false
  end.

(** The values no branch of the dispatch takes: a string or a null. *)
Definition skipped_shape (x : json) : bool :=
  match x with
  | JStr _ | JNull => true
  | _ => false
  end.

(** A valid entry, in the words of the specification: it carries its time
    stamp, and its value is a plain number, a sequence of elements that
    each supply a [type] and a [value], or a keyed mapping. *)
Definition valid_entry (e : json) : Prop :=
  (exists ts, Py.getitem e "datetime" = Ok ts) /\
  ((exists q, Py.getitem e "value" = Ok (JNum q)) \/
   (exists elems,
       Py.getitem e "value" = Ok (JList elems) /\
       Forall (fun el => exists t v,
                 Py.getitem el "type" = Ok t /\ Py.getitem el "value" = Ok v)
              elems) \/
   (exists d, Py.getitem e "value" = Ok (JDict d))).

(** The records the specification asks for a valid entry (section 4.1,
    step 2): one record with category ["total"] for a number, one record
    per element of a sequence, one record per pair of a mapping. *)
Definition expected_records (e : json) : list record :=
  let stamp := ("datetime", field e "datetime") in
  match field e "value" with
  | JNum q => [[stamp; ("type", JStr "total"); ("value", JNum q)]]
  | JList elems =>
      map (fun el => [stamp; ("type", field el "type"); ("value", field el "value")])
          elems
  | JDict d =>
      map (fun kv => [stamp; ("type", JStr (fst kv)); ("value", snd kv)]) d
  | _ => []
  end.

(** The property C9 asks of a table: every record has a numeric value. *)
Definition all_values_numeric (table : DataFrame) : bool :=
  forallb (fun r => match Py.lookup "value" r with
                    | Some v => is_number v
                    | None => false
                    end) table.

(** ** The metrics of [reepi/utils/data_processing.py] *)

Module Metrics.

Local Open Scope Q_scope.

(** A calendar date ([datetime.date]) and a parsed time stamp
    ([pandas.Timestamp]: a date and the seconds since midnight). *)
Record Date : Type := mkDate { year : Z; month : Z; day : Z }.
Record Timestamp : Type := mkTimestamp { date : Date; seconds : Z }.

(** A cell of the [datetime] column: the string the API sent, or a time
    stamp once [pd.to_datetime] has converted the column. *)
Inductive stamp : Type :=
| Text (s : string)
| Parsed (t : Timestamp).

(** A row of a generation frame: columns [datetime], [type], [value]. *)
Record row : Type := mkRow { datetime : stamp; type : string; value : Q }.

Definition frame : Type := list row.

(** [df.empty] *)
Definition empty (A : Type) (df : list A) : bool :=
  match df with [] => true | _ => false end.
Arguments empty {A} df.

(** [Series.sum()] *)
Definition sum (xs : list Q) : Q := fold_left Qplus xs 0.

(** [Series.mean()] *)
Definition mean (xs : list Q) : Q := sum xs / inject_Z (Z.of_nat (List.length xs)).

(** Lines 35-38. *)
Definition renewable_types : list string :=
  ["Hydro"; "Wind"; "Solar PV"; "Solar thermal"; "Hydroeólica";
   "Geothermal"; "Biomass"; "Other renewables"].

(** [Series.isin(values)] on one cell. *)
Definition isin (values : list string) (x : string) : bool :=
  existsb (String.eqb x) values.

(** Lines 25-50: [calculate_renewable_percentage]. *)
Definition calculate_renewable_percentage (df : frame) : Q :=
  if empty df then 0
  else
    let renewable_df := filter (fun r => isin renewable_types (type r)) df in
    let renewable_sum := sum (map value renewable_df) in
    let total_sum := sum (map value df) in
    if Qeq_bool total_sum 0 then 0
    else (renewable_sum / total_sum) * 100.

(** [DataFrame.groupby(keys)] with its default [sort=True]: the groups are
    kept in ascending key order, and within a group the values stay in row
    order. *)
Section GroupBy.

Context {K : Type} (cmp : K -> K -> comparison).

Fixpoint group_insert (k : K) (v : Q) (groups : list (K * list Q))
  : list (K * list Q) :=
  match groups with
  | [] => [(k, [v])]
  | (k', vs) :: rest =>
      match cmp k k' with
      | Eq => (k', (vs ++ [v])%list) :: rest
      | Lt => (k, [v]) :: groups
      | Gt => (k', vs) :: group_insert k v rest
      end
  end.

Definition groupby (rows : list (K * Q)) : list (K * list Q) :=
  fold_left (fun groups kv => group_insert (fst kv) (snd kv) groups) rows [].

(** The values of the group of key [k], and the values of the rows of key
    [k] in row order; the order on the groups. *)
Fixpoint group_values (k : K) (groups : list (K * list Q)) : list Q :=
  match groups with
  | [] => []
  | (k', vs) :: rest =>
      match cmp k k' with
      | Eq => vs
      | _ => group_values k rest
      end
  end.

Definition is_key (k k' : K) : bool :=
  match cmp k k' with Eq => true | _ => false end.

Definition rows_of (k : K) (rows : list (K * Q)) : list Q :=
  map snd (filter (fun kv => is_key k (fst kv)) rows).

Definition keys_lt {V : Type} (a b : K * V) : Prop := cmp (fst a) (fst b) = Lt.

(** [.sum().reset_index()] and [.mean().reset_index()] on the groups. *)
Definition agg (f : list Q -> Q) (groups : list (K * list Q)) : list (K * Q) :=
  map (fun g => (fst g, f (snd g))) groups.

End GroupBy.

(** Lines 52-66: [aggregate_by_type], with the default [value_col].  Python
    orders strings by code point, which is the order of [String.compare] on
    their UTF-8 bytes. *)
Definition aggregate_by_type (df : frame) : list (string * Q) :=
  if empty df then []
  else agg sum (groupby String.compare (map (fun r => (type r, value r)) df)).

(** Order of the keys of [groupby(['date', 'type'])]. *)
Definition date_compare (a b : Date) : comparison :=
  match Z.compare (year a) (year b) with
  | Eq => match Z.compare (month a) (month b) with
          | Eq => Z.compare (day a) (day b)
          | c => c
          end
  | c => c
  end.

Definition key_compare (a b : Date * string) : comparison :=
  match date_compare (fst a) (fst b) with
  | Eq => String.compare (snd a) (snd b)
  | c => c
  end.

Section DailyAverage.

(** The conversion cell by cell, for a column in which no time stamp is
    missing and whose strings pandas reads one by one (the module [Daily]
    below has the conversion of the column as a whole, with [NaT]).
    [pd.to_datetime] on one string: the time stamp, or [None] where pandas
    raises because the string is no date-time. *)
Variable to_datetime : string -> option Timestamp.

(** [pd.to_datetime] on one cell: a converted cell is left as it is. *)
Definition convert_cell (c : stamp) : exc stamp :=
  match c with
  | Parsed t => Ok (Parsed t)
  | Text s =>
      match to_datetime s with
      | Some t => Ok (Parsed t)
      | None => Raise ValueError
      end
  end.

(** Lines 9-23: [format_datetime] on a frame that has the column; one cell
    that does not convert makes the conversion of the column raise. *)
Fixpoint format_datetime (df : frame) : exc frame :=
  match df with
  | [] => Ok []
  | r :: rest =>
      c <- convert_cell (datetime r) ;;
      more <- format_datetime rest ;;
      Ok (mkRow c (type r) (value r) :: more)
  end.

(** [Series.dt.date] on one cell: only a converted column has [.dt]. *)
Definition dt_date (c : stamp) : exc Date :=
  match c with
  | Parsed t => Ok (date t)
  | Text _ => Raise AttributeError
  end.

Fixpoint keyed (df : frame) : exc (list ((Date * string) * Q)) :=
  match df with
  | [] => Ok []
  | r :: rest =>
      d <- dt_date (datetime r) ;;
      more <- keyed rest ;;
      Ok (((d, type r), value r) :: more)
  end.

(** Lines 68-88: [calculate_daily_average], with the default columns. *)
Definition calculate_daily_average (df : frame) : exc (list ((Date * string) * Q)) :=
  df_copy <- format_datetime df ;;
  if empty df_copy then Ok []
  else
    rows <- keyed df_copy ;;
    Ok (agg mean (groupby key_compare rows)).

End DailyAverage.

(** A strict reader of [YYYY-MM-DD] and [YYYY-MM-DD hh:mm:ss] (also with
    [T] between date and time), used to run the examples: every string it
    reads is one [pd.to_datetime] reads to the same time stamp. *)
Definition digit (c : ascii) : option Z :=
  let n := Z.of_nat (nat_of_ascii c) in
  if ((48 <=? n) && (n <=? 57))%Z then Some (n - 48)%Z else None.

Fixpoint number (cs : list ascii) (acc : Z) : option Z :=
  match cs with
  | [] => Some acc
  | c :: rest =>
      match digit c with
      | Some d => number rest (10 * acc + d)%Z
      | None => None
      end
  end.

Definition leap (y : Z) : bool :=
  ((y mod 4 =? 0) && (negb (y mod 100 =? 0) || (y mod 400 =? 0)))%Z.

Definition days_in_month (y m : Z) : Z :=
  if (m =? 2)%Z then (if leap y then 29 else 28)%Z
  else if ((m =? 4) || (m =? 6) || (m =? 9) || (m =? 11))%Z then 30%Z
  else 31%Z.

Definition read_date (y m d : list ascii) : option Date :=
  match number y 0, number m 0, number d 0 with
  | Some y, Some m, Some d =>
      if ((1 <=? m) && (m <=? 12) && (1 <=? d) && (d <=? days_in_month y m))%Z
      then Some (mkDate y m d) else None
  | _, _, _ => None
  end.

Definition read_time (h m s : list ascii) : option Z :=
  match number h 0, number m 0, number s 0 with
  | Some h, Some m, Some s =>
      if ((h <? 24) && (m <? 60) && (s <? 60))%Z
      then Some (3600 * h + 60 * m + s)%Z else None
  | _, _, _ => None
  end.

Definition is_char (c : ascii) (s : string) : bool :=
  String.eqb (String c EmptyString) s.

Definition iso_to_datetime (s : string) : option Timestamp :=
  match list_ascii_of_string s with
  | y1 :: y2 :: y3 :: y4 :: a :: m1 :: m2 :: b :: d1 :: d2 :: rest =>
      if is_char a "-" && is_char b "-" then
        match read_date [y1; y2; y3; y4] [m1; m2] [d1; d2] with
        | Some d =>
            match rest with
            | [] => Some (mkTimestamp d 0)
            | [sep; h1; h2; c1; n1; n2; c2; s1; s2] =>
                if (is_char sep "T" || is_char sep " ")
                   && is_char c1 ":" && is_char c2 ":" then
                  match read_time [h1; h2] [n1; n2] [s1; s2] with
                  | Some t => Some (mkTimestamp d t)
                  | None => None
                  end
                else None
            | _ => None
            end
        | None => None
        end
      else None
  | _ => None
  end.

(** The frames of the package's tests. *)
Definition at_noon : stamp := Text "2023-01-01T12:00:00".

Definition mix_frame : frame :=
  [mkRow at_noon "Wind" 200; mkRow at_noon "Solar PV" 100;
   mkRow at_noon "Nuclear" 400; mkRow at_noon "Coal" 300].

Definition wind_solar_frame : frame :=
  [mkRow at_noon "Wind" 100; mkRow at_noon "Wind" 150;
   mkRow at_noon "Solar PV" 200; mkRow at_noon "Solar PV" 250].

(** The sum of [value] over the records that satisfy [p], in the words of
    the specification. *)
Fixpoint total_where (p : row -> bool) (df : frame) : Q :=
  match df with
  | [] => 0
  | r :: rest => if p r then value r + total_where p rest else total_where p rest
  end.

Definition renewable (r : row) : bool :=
  if in_dec string_dec (type r) renewable_types then true else false.
Definition every (r : row) : bool := true.
Definition of_category (c : string) (r : row) : bool :=
  if string_dec (type r) c then true else false.

(** The categories of a frame in order of first occurrence: the order the
    specification gives to the output of the aggregation. *)
Fixpoint first_occurrence_order (seen : list string) (df : frame) : list string :=
  match df with
  | [] => []
  | r :: rest =>
      if existsb (String.eqb (type r)) seen then first_occurrence_order seen rest
      else type r :: first_occurrence_order (type r :: seen) rest
  end.

End Metrics.

(** ** Further payload predicates *)

(** An element of a list-shaped value that supplies its [type] and its
    [value]. *)
Definition element_ok (el : json) : Prop :=
  exists t v, Py.getitem el "type" = Ok t /\ Py.getitem el "value" = Ok v.

(** An entry the loop of [parse_generation_data] can process: it supplies
    both keys and, where its value is a list, every element is well
    formed. *)
Definition entry_ok (e : json) : Prop :=
  has_keys e /\
  forall elems, Py.getitem e "value" = Ok (JList elems) -> Forall element_ok elems.

(** The columns of a row, in order, and a row without one of its columns. *)
Definition columns_of (r : record) : list string := map fst r.

Definition drop_column (name : string) (r : record) : record :=
  filter (fun kv => negb (String.eqb (fst kv) name)) r.

(** ** [extract_time_series] of [reepi/utils/data_processing.py] *)

Module TimeSeries.

(** [x.get(key)]: only a [dict] has the method; a missing key gives [None]. *)
Definition get (x : json) (key : string) : exc json :=
  match x with
  | JDict d => Ok (match Py.lookup key d with Some v => v | None => JNull end)
  | _ => Raise AttributeError
  end.

(** [x.items()] *)
Definition items (x : json) : exc (list (string * json)) :=
  match x with
  | JDict d => Ok d
  | _ => Raise AttributeError
  end.

(** [d[key] = v]: a present key keeps its place, a new one goes last. *)
Fixpoint setitem (key : string) (v : json) (d : list (string * json))
  : list (string * json) :=
  match d with
  | [] => [(key, v)]
  | (k, x) :: rest =>
      if String.eqb key k then (k, v) :: rest else (k, x) :: setitem key v rest
  end.

(** Lines 116-119: the additional fields of a value are copied into the
    entry. *)
Definition copy_field (entry : record) (kv : string * json) : record :=
  if existsb (String.eqb (fst kv)) ["datetime"; "value"] then entry
  else setitem (fst kv) (snd kv) entry.

Definition copy_extras (fields : list (string * json)) (entry : record) : record :=
  fold_left copy_field fields entry.

(** Lines 111-121: the entry of one value of an item. *)
Definition value_entry (item value : json) : exc record :=
  d <- Py.getitem value "datetime" ;;
  attributes <- Py.getitem item "attributes" ;;
  title <- Py.getitem attributes "title" ;;
  v <- Py.getitem value "value" ;;
  fields <- items value ;;
  Ok (copy_extras fields [("datetime", d); ("type", title); ("value", v)]).

(** Lines 110-121: the inner loop. *)
Fixpoint values_entries (item : json) (values : list json) : exc (list record) :=
  match values with
  | [] => Ok []
  | value :: rest =>
      entry <- value_entry item value ;;
      more <- values_entries item rest ;;
      Ok (entry :: more)
  end.

(** Line 107: the test that makes the loop [continue]; [indicator] is
    [None] or a string, and an empty string is falsy. *)
Definition skipped (indicator : option string) (item : json) : exc bool :=
  match indicator with
  | None => Ok false
  | Some name =>
      if String.eqb name "" then Ok false
      else
        attributes <- Py.getitem item "attributes" ;;
        title <- get attributes "title" ;;
        Ok (negb (Py.is_str name title))
  end.

(** Lines 107-121: the body of the outer loop. *)
Definition item_entries (indicator : option string) (item : json)
  : exc (list record) :=
  skip <- skipped indicator item ;;
  if skip then Ok []
  else
    attributes <- Py.getitem item "attributes" ;;
    values <- Py.getitem attributes "values" ;;
    vs <- Py.iter values ;;
    values_entries item vs.

Fixpoint items_entries (indicator : option string) (included : list json)
  : exc (list record) :=
  match included with
  | [] => Ok []
  | item :: rest =>
      entries <- item_entries indicator item ;;
      more <- items_entries indicator rest ;;
      Ok (entries ++ more)%list
  end.

(** Lines 90-123. *)
Definition extract_time_series (data : json) (indicator : option string)
  : exc DataFrame :=
  if negb (Py.truthy data) then Ok empty_frame
  else
    has <- Py.contains data "included" ;;
    if negb has then Ok empty_frame
    else
      included <- Py.getitem data "included" ;;
      its <- Py.iter included ;;
      items_entries indicator its.

(** A value the loop can process: a dictionary with distinct keys (as every
    Python dictionary has) among which [datetime] and [value]. *)
Definition value_ok (fields : list (string * json)) : Prop :=
  NoDup (map fst fields) /\
  (exists d, Py.lookup "datetime" fields = Some d) /\
  (exists v, Py.lookup "value" fields = Some v).

(** An item with a title and a list of values. *)
Definition item_with (item title : json) (values : list (list (string * json)))
  : Prop :=
  exists di attributes,
    item = JDict di /\
    Py.lookup "attributes" di = Some (JDict attributes) /\
    Py.lookup "title" attributes = Some title /\
    Py.lookup "values" attributes = Some (JList (map JDict values)).

(** An item whose attributes are a dictionary. *)
Definition has_attributes (item : json) : Prop :=
  exists di attributes,
    item = JDict di /\ Py.lookup "attributes" di = Some (JDict attributes).

(** The title test of line 107, on such an item. *)
Definition titled (name : string) (item : json) : bool :=
  match Py.getitem item "attributes" with
  | Ok attributes =>
      match get attributes "title" with
      | Ok title => Py.is_str name title
      | Raise _ => false
      end
  | Raise _ => false
  end.

(** The entry of a value, written out: the three leading columns, then the
    other fields of the value in their order; a field named [type] of the
    value takes the place of the title. *)
Definition is_extra (kv : string * json) : bool :=
  negb (existsb (String.eqb (fst kv)) ["datetime"; "type"; "value"]).

Definition entry_of (title : json) (fields : list (string * json)) : record :=
  ([("datetime", field (JDict fields) "datetime");
    ("type", match Py.lookup "type" fields with Some x => x | None => title end);
    ("value", field (JDict fields) "value")] ++
   filter is_extra fields)%list.

End TimeSeries.

(** ** Predicates on frames used in the statements on the metrics *)

Module Frames.

Import Metrics.

Section Cells.

Variable to_datetime : string -> option Timestamp.

(** The calendar date of a cell, where it has one. *)
Definition cell_date (c : stamp) : option Date :=
  match c with
  | Parsed t => Some (date t)
  | Text s => option_map date (to_datetime s)
  end.

Definition date_eqb (a b : Date) : bool :=
  ((year a =? year b) && (month a =? month b) && (day a =? day b))%Z.

(** The record belongs to the bucket of date [d] and category [c]. *)
Definition in_bucket (d : Date) (c : string) (r : row) : bool :=
  match cell_date (datetime r) with
  | Some d' => date_eqb d' d && String.eqb (type r) c
  | None => false
  end.


End Cells.

(** All values of the frame are at least zero. *)
Definition nonnegative (df : frame) : Prop := Forall (fun r => 0 <= value r)%Q df.

(** Two aggregates with the same categories and equal sums. *)
Definition same_aggregate (a b : list (string * Q)) : Prop :=
  Forall2 (fun x y => fst x = fst y /\ (snd x == snd y)%Q) a b.

End Frames.

(** ** Masking of the API token *)

Module Token.

Section Mask.

(** A Python string is a sequence of characters; [dot] and [star] are the
    characters of the literals ["..."] and ["*"]. *)
Variable C : Type.
Variables dot star : C.

(** [s[:n]] and [s[-n:]] for a positive [n]. *)
Definition slice_to (n : nat) (s : list C) : list C := firstn n s.
Definition slice_last (n : nat) (s : list C) : list C :=
  skipn (List.length s - n) s.

(** [client.py], lines 103-107: the token as the initialisation message
    shows it, or [None] where the message is the one without a token. *)
Definition masked_token (api_token : option (list C)) : option (list C) :=
  match api_token with
  | None => None
  | Some token =>
      if negb (Metrics.empty token) && (8 <? List.length token)%nat
      then Some (slice_to 4 token ++ [dot; dot; dot] ++ slice_last 4 token)%list
      else None
  end.


End Mask.

End Token.

(** ** [get_logger] of [reepi/utils/logger.py] *)

Module Logging.

(** A [StreamHandler] on standard output with its level and format, and a
    logger with its level and handlers. *)
Record Handler : Type := mkHandler { handler_level : Z; handler_format : string }.
Record Logger : Type := mkLogger { level : Z; handlers : list Handler }.

(** The loggers of the [logging] module by name: [logging.getLogger(name)]
    returns the logger of that name, and the same one at each call.  The
    empty name and the name [root] both denote the root logger
    ([logging/__init__.py], [getLogger], Python 3.9 and later); [key] is
    the name under which a logger is kept, and a registry gives the same
    logger for two names of the same key. *)
Definition Registry : Type := string -> Logger.

Definition key (name : string) : string :=
  if String.eqb name "" then "root" else name.

Definition NOTSET : Z := 0.
Definition INFO : Z := 20.
Definition WARNING : Z := 30.

(** A registry in which no logger has been configured: the root logger
    has level [WARNING], every other one [NOTSET], and none has a
    handler. *)
Definition fresh : Registry :=
  fun n => mkLogger (if String.eqb (key n) "root" then WARNING else NOTSET) [].

Definition format : string :=
  "%(asctime)s - %(name)s - %(levelname)s - %(message)s".

Definition update (reg : Registry) (name : string) (logger : Logger) : Registry :=
  fun n => if String.eqb (key n) (key name) then logger else reg n.

(** Lines 9-42: the registry after the call; the logger returned is the
    one of that name in it. *)
Definition get_logger (name : string) (level : option Z) (reg : Registry)
  : Registry :=
  let level := match level with None => INFO | Some l => l end in
  let logger := reg name in
  if Metrics.empty (handlers logger)
  then update reg name
         (mkLogger level (handlers logger ++ [mkHandler level format]))
  else reg.

(** A sequence of calls, in order. *)
Definition calls (cs : list (string * option Z)) (reg : Registry) : Registry :=
  fold_left (fun r c => get_logger (fst c) (snd c) r) cs reg.

End Logging.

(** ** [load_data] of [reepi/app.py] *)

Module App.

(** The attributes [REEClient] defines ([client.py], lines 20-369); those
    it inherits from [object] all begin with two underscores. *)
Definition REEClient_attributes : list string :=
  ["BASE_URL"; "INDICATORS"; "GEO_IDS"; "timeout"; "session"; "api_token";
   "__init__"; "_make_request"; "get_all_indicators"; "get_indicator";
   "get_indicator_values"; "get_hydro_generation"; "get_electricity_prices";
   "get_demand_data"; "get_generation_mix"; "get_co2_emissions";
   "to_dataframe"; "get_real_time_data"].

(** What [load_data] returns: a frame, or the dictionary of frames of the
    dashboard. *)
Inductive loaded : Type :=
| Frame (df : DataFrame)
| Frames (d : list (string * DataFrame)).

Section LoadData.

(** The requests of the client, which may raise. *)
Variables get_generation_mix get_electricity_prices get_demand_data
          get_co2_emissions : string -> string -> string -> exc json.

(** The call of an attribute that [REEClient] defines, on a response. *)
Variable call_attribute : string -> json -> exc DataFrame.

(** [pd.to_datetime] on the [datetime] column of a frame that has one. *)
Variable to_datetime_column : DataFrame -> exc DataFrame.

(** [client.name(data)]: an attribute the class does not define raises
    [AttributeError]. *)
Definition client_call (name : string) (data : json) : exc DataFrame :=
  if existsb (String.eqb name) REEClient_attributes
  then call_attribute name data
  else Raise AttributeError.

(** [format_datetime] ([data_processing.py], lines 9-23) on a frame of
    records: its columns are the keys of its records. *)
Definition format_datetime (df : DataFrame) : exc DataFrame :=
  if existsb (String.eqb "datetime") (flat_map columns_of df)
  then to_datetime_column df
  else Ok df.

(** Lines 104-142: the body of the [try]. *)
Definition load (data_type start_date end_date time_trunc : string) : exc loaded :=
  if String.eqb data_type "Generation Mix" then
    data <- get_generation_mix start_date end_date time_trunc ;;
    df <- client_call "parse_generation_data" data ;;
    r <- format_datetime df ;;
    Ok (Frame r)
  else if String.eqb data_type "Electricity Prices" then
    data <- get_electricity_prices start_date end_date time_trunc ;;
    df <- client_call "parse_price_data" data ;;
    r <- format_datetime df ;;
    Ok (Frame r)
  else if String.eqb data_type "Demand" then
    data <- get_demand_data start_date end_date time_trunc ;;
    df <- TimeSeries.extract_time_series data None ;;
    r <- format_datetime df ;;
    Ok (Frame r)
  else if String.eqb data_type "CO2 Emissions" then
    data <- get_co2_emissions start_date end_date time_trunc ;;
    df <- TimeSeries.extract_time_series data None ;;
    r <- format_datetime df ;;
    Ok (Frame r)
  else if String.eqb data_type "Dashboard" then
    gen_data <- get_generation_mix start_date end_date time_trunc ;;
    gen <- client_call "parse_generation_data" gen_data ;;
    gen_df <- format_datetime gen ;;
    price_data <- get_electricity_prices start_date end_date time_trunc ;;
    price <- client_call "parse_price_data" price_data ;;
    price_df <- format_datetime price ;;
    demand_data <- get_demand_data start_date end_date time_trunc ;;
    demand <- TimeSeries.extract_time_series demand_data None ;;
    demand_df <- format_datetime demand ;;
    Ok (Frames [("generation", gen_df); ("prices", price_df);
                ("demand", demand_df)])
  else Ok (Frame empty_frame).

(** Lines 103-147: [load_data]; [except Exception] catches every
    exception of the body. *)
Definition load_data (data_type start_date end_date time_trunc : string) : loaded :=
  match load data_type start_date end_date time_trunc with
  | Ok result => result
  | Raise _ =>
      if negb (String.eqb data_type "Dashboard") then Frame empty_frame
      else Frames []
  end.

End LoadData.

End App.

(** ** The [value] column as pandas holds it

    The module [Metrics] above computes in exact rationals.  Here the
    column has its dtype: [int64], whose sums wrap around at 64 bits, or
    [float64], whose sums are rounded at each addition; the division of
    line 50 is a division of two binary64 numbers. *)

Module Numeric.

(** The result of an [int64] operation, reduced into the signed range. *)
Definition wrap64 (z : Z) : Z := ((z + 2 ^ 63) mod 2 ^ 64 - 2 ^ 63)%Z.

Definition in_int64 (z : Z) : Prop := (- 2 ^ 63 <= z < 2 ^ 63)%Z.

(** The sum of integers, as mathematics has it. *)
Definition exact_sum (xs : list Z) : Z := fold_right Z.add 0%Z xs.

(** [Series.sum()] on an [int64] column: each addition wraps around. *)
Definition sum_int64 (xs : list Z) : Z :=
  fold_left (fun acc x => wrap64 (acc + x)) xs 0%Z.

(** The binary64 number of an integer below [2^53], by doubling: every
    step is exact. *)
Fixpoint exact_float (p : positive) : float :=
  match p with
  | xH => 1%float
  | xO q => PrimFloat.mul 2%float (exact_float q)
  | xI q => PrimFloat.add (PrimFloat.mul 2%float (exact_float q)) 1%float
  end.

Definition small_float (n : Z) : float :=
  match n with
  | Zpos p => exact_float p
  | _ => 0%float
  end.

(** The conversion of an [int64] to [float64], rounded to nearest: the two
    halves of the magnitude are exact, and their sum is rounded once by
    the addition. *)
Definition float_of_int64 (z : Z) : float :=
  let m := Z.abs z in
  let f := PrimFloat.add
             (PrimFloat.mul (small_float (m / 2 ^ 32)) 4294967296%float)
             (small_float (m mod 2 ^ 32)) in
  if (z <? 0)%Z then PrimFloat.opp f else f.

(** What the metrics use of the dtype of the column: [Series.sum()], the
    sum of one group of [groupby(...).sum()], the test [x == 0] and the
    operand of a true division. *)
Record Dtype (V : Type) : Type := mkDtype {
  series_sum : list V -> V;
  group_sum : list V -> V;
  is_zero : V -> bool;
  to_float : V -> float
}.
Arguments series_sum {V} d xs.
Arguments group_sum {V} d xs.
Arguments is_zero {V} d x.
Arguments to_float {V} d x.

Definition int64 : Dtype Z :=
  {| series_sum := sum_int64;
     group_sum := sum_int64;
     is_zero := fun z => (z =? 0)%Z;
     to_float := float_of_int64 |}.

Section Float64.

(** The sum numpy computes for a column of eight cells or more (pairwise,
    in blocks) and the sum of one group in [groupby(...).sum()] are taken
    as given. *)
Variables long_sum grouped_sum : list float -> float.

(** [Series.sum()] on a [float64] column: a [NaN] counts as zero
    ([skipna]), and a column of fewer than eight cells is added up from
    left to right, starting from zero. *)
Definition skipna (xs : list float) : list float :=
  map (fun x => if PrimFloat.is_nan x then 0%float else x) xs.

Definition sum_float64 (xs : list float) : float :=
  if (List.length xs <? 8)%nat then fold_left PrimFloat.add (skipna xs) 0%float
  else long_sum (skipna xs).

Definition float64 : Dtype float :=
  {| series_sum := sum_float64;
     group_sum := grouped_sum;
     is_zero := fun x => PrimFloat.eqb x 0%float;
     to_float := fun x => x |}.

End Float64.

(** A row of a generation frame whose [value] column has cells of type
    [V]. *)
Record row (V : Type) : Type :=
  mkRow { datetime : Metrics.stamp; type : string; value : V }.
Arguments mkRow {V} datetime type value.
Arguments datetime {V} r.
Arguments type {V} r.
Arguments value {V} r.

(** [data_processing.py], lines 25-50: [calculate_renewable_percentage]. *)
Definition calculate_renewable_percentage {V : Type} (D : Dtype V)
           (df : list (row V)) : float :=
  if Metrics.empty df then 0%float
  else
    let renewable_df :=
      filter (fun r => Metrics.isin Metrics.renewable_types (type r)) df in
    let renewable_sum := series_sum D (map value renewable_df) in
    let total_sum := series_sum D (map value df) in
    if is_zero D total_sum then 0%float
    else PrimFloat.mul
           (PrimFloat.div (to_float D renewable_sum) (to_float D total_sum))
           100%float.

(** [DataFrame.groupby(keys)] with its default [sort=True], on cells of any
    type: the groups are kept in ascending key order, and within a group
    the values stay in row order. *)
Section GroupBy.

Context {K V : Type} (cmp : K -> K -> comparison).

Fixpoint group_insert (k : K) (v : V) (groups : list (K * list V))
  : list (K * list V) :=
  match groups with
  | [] => [(k, [v])]
  | (k', vs) :: rest =>
      match cmp k k' with
      | Eq => (k', (vs ++ [v])%list) :: rest
      | Lt => (k, [v]) :: groups
      | Gt => (k', vs) :: group_insert k v rest
      end
  end.

Definition groupby (rows : list (K * V)) : list (K * list V) :=
  fold_left (fun groups kv => group_insert (fst kv) (snd kv) groups) rows [].

Definition agg (f : list V -> V) (groups : list (K * list V)) : list (K * V) :=
  map (fun g => (fst g, f (snd g))) groups.

(** The values of the group of key [k]; the values of the rows of key [k]
    in row order. *)
Fixpoint group_values (k : K) (groups : list (K * list V)) : list V :=
  match groups with
  | [] => []
  | (k', vs) :: rest =>
      match cmp k k' with
      | Eq => vs
      | _ => group_values k rest
      end
  end.

Definition rows_of (k : K) (rows : list (K * V)) : list V :=
  map snd (filter (fun kv => Metrics.is_key cmp k (fst kv)) rows).

End GroupBy.

(** [data_processing.py], lines 52-66: [aggregate_by_type]. *)
Definition aggregate_by_type {V : Type} (D : Dtype V) (df : list (row V))
  : list (string * V) :=
  if Metrics.empty df then []
  else agg (group_sum D)
           (groupby String.compare (map (fun r => (type r, value r)) df)).

(** In the words of the specification: the values of the records whose
    category is renewable, the values of the records of one category, and
    the categories in order of first occurrence. *)
Definition renewable_values {V : Type} (df : list (row V)) : list V :=
  map value
      (filter (fun r => if in_dec string_dec (type r) Metrics.renewable_types
                        then true else false) df).

Definition category_values {V : Type} (c : string) (df : list (row V)) : list V :=
  map value (filter (fun r => if string_dec (type r) c then true else false) df).

Fixpoint first_occurrence (seen : list string) (types : list string) : list string :=
  match types with
  | [] => []
  | t :: rest =>
      if existsb (String.eqb t) seen then first_occurrence seen rest
      else t :: first_occurrence (t :: seen) rest
  end.

(** The frames of the package's tests, with their integer columns, and
    frames on which the arithmetic of the column shows. *)
Definition mix_frame : list (row Z) :=
  [mkRow Metrics.at_noon "Wind" 200%Z; mkRow Metrics.at_noon "Solar PV" 100%Z;
   mkRow Metrics.at_noon "Nuclear" 400%Z; mkRow Metrics.at_noon "Coal" 300%Z].

Definition wind_solar_frame : list (row Z) :=
  [mkRow Metrics.at_noon "Wind" 100%Z; mkRow Metrics.at_noon "Wind" 150%Z;
   mkRow Metrics.at_noon "Solar PV" 200%Z; mkRow Metrics.at_noon "Solar PV" 250%Z].

Definition wrapping_frame : list (row Z) :=
  [mkRow Metrics.at_noon "Wind" (2 ^ 62)%Z; mkRow Metrics.at_noon "Coal" (2 ^ 62)%Z].

Definition wrapping_wind_frame : list (row Z) :=
  [mkRow Metrics.at_noon "Wind" (2 ^ 62)%Z; mkRow Metrics.at_noon "Wind" (2 ^ 62)%Z].

Definition cancelling_values : list Z :=
  [10 ^ 16; 1; - 10 ^ 16; -1]%Z.

Definition cancelling_frame : list (row float) :=
  [mkRow Metrics.at_noon "Wind" (float_of_int64 (10 ^ 16));
   mkRow Metrics.at_noon "Coal" (float_of_int64 1);
   mkRow Metrics.at_noon "Coal" (float_of_int64 (- 10 ^ 16));
   mkRow Metrics.at_noon "Coal" (float_of_int64 (-1))].

End Numeric.

(** ** The daily average with the conversion of the column as pandas does it

    [pd.to_datetime] converts the [datetime] column as a whole: it infers
    one format from the first string and reads every string with it, it
    gives [NaT] for a string it takes as missing, and it raises on any
    other string it cannot read.  [None] stands for [NaT]. *)

Module Daily.

Import Metrics.

Section DailyAverage.

(** [pd.to_datetime] on the column: the converted cells, or the exception
    it raises. *)
Variable to_datetime : list stamp -> exc (list (option Timestamp)).

(** [data_processing.py], lines 9-23: [format_datetime] on a frame that
    has the column; every row with its converted cell. *)
Definition format_datetime (df : frame) : exc (list (option Timestamp * row)) :=
  cells <- to_datetime (map datetime df) ;;
  Ok (combine cells df).

(** Lines 85-86: the [date] column and the keys of the grouping; [.dt.date]
    of [NaT] is [NaT], and [groupby] leaves out the rows whose key is
    missing. *)
Definition dated (df_copy : list (option Timestamp * row))
  : list ((Date * string) * Q) :=
  flat_map (fun cr => match fst cr with
                      | Some t => [((date t, type (snd cr)), value (snd cr))]
                      | None => []
                      end) df_copy.

(** Lines 68-88: [calculate_daily_average], with the default columns. *)
Definition calculate_daily_average (df : frame)
  : exc (list ((Date * string) * Q)) :=
  df_copy <- format_datetime df ;;
  if empty df_copy then Ok []
  else Ok (agg mean (groupby key_compare (dated df_copy))).

End DailyAverage.

(** The converted row belongs to the bucket of date [d] and category
    [c]; a row without a date belongs to none. *)
Definition in_bucket (d : Date) (c : string) (cr : option Timestamp * row) : bool :=
  match fst cr with
  | Some t => Frames.date_eqb (date t) d && String.eqb (type (snd cr)) c
  | None => false
  end.

(** A converter for columns of ISO strings, used to run the examples in
    place of [pd.to_datetime]: the empty string and [NaT] are read as
    missing; the first other string fixes the layout (a date, a date and a
    time joined by [T], or joined by a space); a string that is no
    date-time of that layout raises. *)
Definition missing_marker (s : string) : bool :=
  existsb (String.eqb s) [""; "NaT"].

Definition layout (s : string) : option nat :=
  match iso_to_datetime s with
  | None => None
  | Some _ =>
      if (String.length s =? 10)%nat then Some 0%nat
      else match String.get 10 s with
           | Some c => if Ascii.eqb c "T" then Some 1%nat else Some 2%nat
           | None => None
           end
  end.

Fixpoint first_layout (cells : list stamp) : option nat :=
  match cells with
  | [] => None
  | Parsed _ :: rest => first_layout rest
  | Text s :: rest => if missing_marker s then first_layout rest else layout s
  end.

Definition convert_with (inferred : option nat) (c : stamp)
  : exc (option Timestamp) :=
  match c with
  | Parsed t => Ok (Some t)
  | Text s =>
      if missing_marker s then Ok None
      else match inferred, layout s, iso_to_datetime s with
           | Some f, Some g, Some t =>
               if (f =? g)%nat then Ok (Some t) else Raise ValueError
           | _, _, _ => Raise ValueError
           end
  end.

Fixpoint convert_all (inferred : option nat) (cells : list stamp)
  : exc (list (option Timestamp)) :=
  match cells with
  | [] => Ok []
  | c :: rest =>
      t <- convert_with inferred c ;;
      more <- convert_all inferred rest ;;
      Ok (t :: more)
  end.

Definition to_datetime_inferred (cells : list stamp)
  : exc (list (option Timestamp)) :=
  convert_all (first_layout cells) cells.

End Daily.

(** ** Shared lemmas *)

Lemma response_with_response (values : list json) :
  response_with (response values) values.
Proof. unfold response_with, response. do 2 eexists. repeat split; reflexivity. Qed.

Lemma bind_ok {A B} (m : exc A) (k : A -> exc B) (b : B) :
  bind m k = Ok b -> exists a, m = Ok a /\ k a = Ok b.
Proof. destruct m as [a|e]; simpl; intros H; [eauto | discriminate]. Qed.

Lemma lookup_some_truthy key d v :
  Py.lookup key d = Some v -> Py.truthy (JDict d) = true.
Proof. destruct d; simpl; [discriminate | reflexivity]. Qed.

Ltac open_response H :=
  let d := fresh "d" in
  let ind := fresh "ind" in
  let Hd := fresh "Hd" in
  let Hi := fresh "Hi" in
  let Hv := fresh "Hv" in
  destruct H as (d & ind & Hd & Hi & Hv); subst.

Lemma parse_generation_data_loop data values :
  response_with data values ->
  Normalizer.parse_generation_data data = Normalizer.loop_records values.
Proof.
  intros H. open_response H.
  unfold Normalizer.parse_generation_data.
  rewrite (lookup_some_truthy _ _ _ Hi). simpl.
  rewrite Hi. simpl. rewrite Hv. reflexivity.
Qed.

Lemma parse_indicator_data_loop data values :
  response_with data values ->
  Normalizer.parse_indicator_data data = Normalizer.scalar_records values.
Proof.
  intros H. open_response H.
  unfold Normalizer.parse_indicator_data.
  rewrite (lookup_some_truthy _ _ _ Hi). simpl.
  rewrite Hi. simpl. rewrite Hv. reflexivity.
Qed.

Lemma loop_records_app xs ys :
  Normalizer.loop_records (xs ++ ys) =
  (rx <- Normalizer.loop_records xs ;;
   ry <- Normalizer.loop_records ys ;;
   Ok (rx ++ ry)%list).
Proof.
  induction xs as [|x xs IH]; simpl.
  - destruct (Normalizer.loop_records ys); reflexivity.
  - destruct (Normalizer.entry_records x) as [rs|e]; simpl; [|reflexivity].
    rewrite IH.
    destruct (Normalizer.loop_records xs) as [rx|e]; simpl; [|reflexivity].
    destruct (Normalizer.loop_records ys) as [ry|e]; simpl; [|reflexivity].
    now rewrite app_assoc.
Qed.

Lemma loop_records_middle pre e post :
  Normalizer.loop_records (pre ++ e :: post) =
  (rp <- Normalizer.loop_records pre ;;
   re <- Normalizer.entry_records e ;;
   rq <- Normalizer.loop_records post ;;
   Ok (rp ++ re ++ rq)%list).
Proof.
  rewrite loop_records_app. simpl.
  destruct (Normalizer.loop_records pre); simpl; [|reflexivity].
  destruct (Normalizer.entry_records e); simpl; [|reflexivity].
  destruct (Normalizer.loop_records post); reflexivity.
Qed.

Lemma loop_records_in values table e recs r :
  Normalizer.loop_records values = Ok table ->
  In e values ->
  Normalizer.entry_records e = Ok recs ->
  In r recs ->
  In r table.
Proof.
  revert table. induction values as [|x xs IH]; simpl; intros table H Hin He Hr.
  - contradiction.
  - apply bind_ok in H. destruct H as (rx & Hx & H).
    apply bind_ok in H. destruct H as (more & Hm & H).
    injection H as <-. apply in_or_app.
    destruct Hin as [->|Hin].
    + rewrite He in Hx. injection Hx as <-. now left.
    + right. now apply (IH more).
Qed.

Lemma list_records_map ts elems :
  Forall (fun el => exists t v,
            Py.getitem el "type" = Ok t /\ Py.getitem el "value" = Ok v) elems ->
  Normalizer.list_records ts elems =
  Ok (map (fun el => [("datetime", ts); ("type", field el "type");
                      ("value", field el "value")]) elems).
Proof.
  induction 1 as [|el elems (t & v & Ht & Hv) _ IH]; simpl.
  - reflexivity.
  - unfold field. rewrite Ht, Hv. simpl. rewrite IH. reflexivity.
Qed.

Lemma list_records_in ts elems recs el t v :
  Normalizer.list_records ts elems = Ok recs ->
  In el elems ->
  Py.getitem el "type" = Ok t ->
  Py.getitem el "value" = Ok v ->
  In [("datetime", ts); ("type", t); ("value", v)] recs.
Proof.
  revert recs. induction elems as [|x xs IH]; simpl; intros recs H Hin Ht Hv.
  - contradiction.
  - apply bind_ok in H. destruct H as (t' & Ht' & H).
    apply bind_ok in H. destruct H as (v' & Hv' & H).
    apply bind_ok in H. destruct H as (more & Hm & H).
    injection H as <-.
    destruct Hin as [->|Hin].
    + rewrite Ht in Ht'. rewrite Hv in Hv'.
      injection Ht' as <-. injection Hv' as <-. now left.
    + right. now apply IH.
Qed.

Lemma scalar_records_map values :
  Forall has_keys values ->
  Normalizer.scalar_records values =
  Ok (map (fun e => [("datetime", field e "datetime");
                     ("value", field e "value")]) values).
Proof.
  induction 1 as [|e values (d & v & Hd & Hv) _ IH]; simpl.
  - reflexivity.
  - unfold field. rewrite Hd, Hv. simpl. rewrite IH. reflexivity.
Qed.

Lemma scalar_records_raises values :
  Exists (fun e => raises (Py.getitem e "datetime") \/
                   raises (Py.getitem e "value")) values ->
  raises (Normalizer.scalar_records values).
Proof.
  induction 1 as [e values H | e values _ IH]; simpl.
  - destruct H as [(err & H) | (err & H)].
    + rewrite H. now exists err.
    + rewrite H. destruct (Py.getitem e "datetime") as [d|err']; simpl.
      * now exists err.
      * now exists err'.
  - destruct (Py.getitem e "datetime") as [d|err]; simpl; [|now exists err].
    destruct (Py.getitem e "value") as [v|err]; simpl; [|now exists err].
    destruct IH as (err & ->). now exists err.
Qed.

(** *** What the guard of [parse_generation_data] does cover *)

Lemma parse_generation_data_null :
  Normalizer.parse_generation_data JNull = Ok empty_frame.
Proof. reflexivity. Qed.

Lemma parse_generation_data_empty_dict :
  Normalizer.parse_generation_data (JDict []) = Ok empty_frame.
Proof. reflexivity. Qed.

Lemma parse_generation_data_no_indicator d :
  Py.lookup "indicator" d = None ->
  Normalizer.parse_generation_data (JDict d) = Ok empty_frame.
Proof.
  intros H. unfold Normalizer.parse_generation_data.
  destruct (negb (Py.truthy (JDict d))); [reflexivity|].
  simpl. rewrite H. reflexivity.
Qed.

Lemma parse_generation_data_empty_values data :
  response_with data [] ->
  Normalizer.parse_generation_data data = Ok empty_frame.
Proof. intros H. now rewrite (parse_generation_data_loop _ _ H). Qed.

(** The guard of [to_dataframe] also covers an indicator without values. *)
Lemma to_dataframe_no_values frame_of d ind :
  Py.lookup "indicator" d = Some (JDict ind) ->
  Py.lookup "values" ind = None ->
  Client.to_dataframe frame_of (JDict d) = Ok empty_frame.
Proof.
  intros Hi Hv. unfold Client.to_dataframe.
  rewrite (lookup_some_truthy _ _ _ Hi). simpl.
  rewrite Hi. simpl. rewrite Hv. reflexivity.
Qed.

(** The guard of [to_dataframe] has a gap of its own: a null in place of
    the indicator makes the test for ["values"] raise. *)
Lemma to_dataframe_null_indicator_raises frame_of :
  Client.to_dataframe frame_of (JDict [("indicator", JNull)]) = Raise TypeError.
Proof. reflexivity. Qed.

(** ** The claims on the normaliser *)

(** C1. The normaliser returns an empty table, and does not raise, on a
    payload that is null, that lacks the indicator-values path, or whose
    values sequence is empty.  This fails where the ["indicator"] entry is
    there and its ["values"] are not: on the payload of the package's own
    test of [to_dataframe], [parse_generation_data] raises [KeyError] at
    its line 71, while [to_dataframe], which tests for ["values"], returns
    the empty frame. *)
Theorem parse_generation_data_missing_values_raises :
  Normalizer.parse_generation_data indicator_without_values =
  Raise (KeyError "values") /\
  (forall frame_of,
      Client.to_dataframe frame_of indicator_without_values = Ok empty_frame).
Proof. split; [reflexivity | intros; reflexivity]. Qed.

(** C2, as stated, fails in two ways.  A boolean is a value of none of the
    three shapes, yet it is not skipped: [isinstance(True, (int, float))]
    holds, so the entry is emitted with category ["total"].  And an entry
    whose value is a string but which lacks its [datetime] makes the whole
    call raise. *)
Lemma unrecognized_entry_not_always_skipped :
  outside_three_shapes (JBool true) = true /\
  Normalizer.parse_generation_data
    (response [JDict [("datetime", JStr "2023-01-01T00:00:00"); ("value", JBool true)]])
  = Ok [[("datetime", JStr "2023-01-01T00:00:00"); ("type", JStr "total");
         ("value", JBool true)]] /\
  outside_three_shapes (JStr "n/a") = true /\
  Normalizer.parse_generation_data
    (response [JDict [("datetime", JStr "2023-01-01T00:00:00"); ("value", JNum 900)];
               JDict [("value", JStr "n/a")]])
  = Raise (KeyError "datetime").
Proof. repeat split. Qed.

Lemma loop_records_valid entries :
  Forall valid_entry entries ->
  Normalizer.loop_records entries = Ok (flat_map expected_records entries).
Proof.
  induction 1 as [|e entries ((ts & Hts) & Hv) _ IH]; simpl; [reflexivity|].
  rewrite IH. unfold Normalizer.entry_records, expected_records, field.
  rewrite Hts. simpl.
  destruct Hv as [(q & Hq) | [(elems & He & Hall) | (d & Hd)]].
  - rewrite Hq. reflexivity.
  - rewrite He. simpl. rewrite (list_records_map _ _ Hall). reflexivity.
  - rewrite Hd. reflexivity.
Qed.

(** C2, amended.  An entry that carries its time stamp and whose value is a
    string or a null is skipped: the call returns what it returns on the
    sequence without that entry, and where the other entries are valid it
    returns exactly their records, in order and as the specification
    describes them for each of the three shapes; the entry alone makes
    nothing raise and drops nothing. *)
Theorem unrecognized_entry_skipped data pre e post ts v :
  response_with data (pre ++ e :: post) ->
  Py.getitem e "datetime" = Ok ts ->
  Py.getitem e "value" = Ok v ->
  skipped_shape v = true ->
  (forall data',
      response_with data' (pre ++ post) ->
      Normalizer.parse_generation_data data = Normalizer.parse_generation_data data') /\
  (Forall valid_entry pre ->
   Forall valid_entry post ->
   Normalizer.parse_generation_data data =
   Ok (flat_map expected_records pre ++ flat_map expected_records post)%list).
Proof.
  intros Hd Hts Hv Hs.
  rewrite (parse_generation_data_loop _ _ Hd).
  assert (He : Normalizer.entry_records e = Ok []).
  { unfold Normalizer.entry_records. rewrite Hts, Hv. simpl.
    destruct v; simpl in Hs; try discriminate; reflexivity. }
  rewrite loop_records_middle, He. split.
  - intros data' Hd'.
    rewrite (parse_generation_data_loop _ _ Hd'), loop_records_app.
    destruct (Normalizer.loop_records pre); simpl; reflexivity.
  - intros Hpre Hpost.
    rewrite (loop_records_valid _ Hpre), (loop_records_valid _ Hpost). reflexivity.
Qed.

Lemma unrecognized_entry_skipped_witness :
  Normalizer.parse_generation_data
    (response [JDict [("datetime", JStr "2023-01-01T00:00:00");
                      ("value", JList [JDict [("type", JStr "Wind"); ("value", JNum 200)]])];
               JDict [("datetime", JStr "2023-01-01T01:00:00"); ("value", JStr "n/a")];
               JDict [("datetime", JStr "2023-01-01T02:00:00");
                      ("value", JDict [("Nuclear", JNum 400)])];
               JDict [("datetime", JStr "2023-01-01T03:00:00"); ("value", JNum 950)]])
  = Ok [[("datetime", JStr "2023-01-01T00:00:00"); ("type", JStr "Wind"); ("value", JNum 200)];
        [("datetime", JStr "2023-01-01T02:00:00"); ("type", JStr "Nuclear"); ("value", JNum 400)];
        [("datetime", JStr "2023-01-01T03:00:00"); ("type", JStr "total"); ("value", JNum 950)]].
Proof.
  apply (proj2 (unrecognized_entry_skipped _
            [JDict [("datetime", JStr "2023-01-01T00:00:00");
                    ("value", JList [JDict [("type", JStr "Wind"); ("value", JNum 200)]])]]
            (JDict [("datetime", JStr "2023-01-01T01:00:00"); ("value", JStr "n/a")])
            [JDict [("datetime", JStr "2023-01-01T02:00:00");
                    ("value", JDict [("Nuclear", JNum 400)])];
             JDict [("datetime", JStr "2023-01-01T03:00:00"); ("value", JNum 950)]]
            (JStr "2023-01-01T01:00:00") (JStr "n/a")
            (response_with_response _) eq_refl eq_refl eq_refl)).
  - constructor; [|constructor]. split; [now eexists|].
    right; left. eexists. split; [reflexivity|].
    constructor; [|constructor]. do 2 eexists. split; reflexivity.
  - constructor; [|constructor; [|constructor]].
    + split; [now eexists|]. right; right. now eexists.
    + split; [now eexists|]. left. now eexists.
Defined.

(** C3. On a response whose N entries all carry a plain number, the
    normaliser yields N records, in order, each with category ["total"] and
    the entry's own time stamp and number. *)
Theorem scalar_entries_total data values :
  response_with data values ->
  Forall (fun e => exists ts q,
            Py.getitem e "datetime" = Ok ts /\
            Py.getitem e "value" = Ok (JNum q)) values ->
  exists table,
    Normalizer.parse_generation_data data = Ok table /\
    List.length table = List.length values /\
    table = map (fun e => [("datetime", field e "datetime");
                           ("type", JStr "total");
                           ("value", field e "value")]) values.
Proof.
  intros Hd Hall. rewrite (parse_generation_data_loop _ _ Hd). clear Hd.
  eexists. split; [|split; [|reflexivity]]; [|now rewrite length_map].
  induction Hall as [|e values (ts & q & Hts & Hq) _ IH]; simpl.
  - reflexivity.
  - unfold Normalizer.entry_records, field. rewrite Hts, Hq. simpl.
    rewrite IH. reflexivity.
Qed.

Lemma scalar_entries_total_witness :
  exists table,
    Normalizer.parse_generation_data
      (response [JDict [("datetime", JStr "2023-01-01T00:00:00"); ("value", JNum 900)];
                 JDict [("datetime", JStr "2023-01-02T00:00:00"); ("value", JNum 950)]])
    = Ok table /\
    List.length table = 2%nat /\
    table = [[("datetime", JStr "2023-01-01T00:00:00"); ("type", JStr "total"); ("value", JNum 900)];
             [("datetime", JStr "2023-01-02T00:00:00"); ("type", JStr "total"); ("value", JNum 950)]].
Proof.
  apply (scalar_entries_total
           (response [JDict [("datetime", JStr "2023-01-01T00:00:00"); ("value", JNum 900)];
                      JDict [("datetime", JStr "2023-01-02T00:00:00"); ("value", JNum 950)]])
           [JDict [("datetime", JStr "2023-01-01T00:00:00"); ("value", JNum 900)];
            JDict [("datetime", JStr "2023-01-02T00:00:00"); ("value", JNum 950)]]).
  - apply response_with_response.
  - repeat (constructor; [do 2 eexists; split; reflexivity|]). constructor.
Defined.

(** C4. An entry whose value is a list of elements with a [type] and a
    [value] contributes one record per element, in the order of the
    elements, with the entry's time stamp, the element's type as category
    and the element's value; the records stand between those of the
    entries before and after it. *)
Theorem typed_list_entry_records data pre e post ts elems tp tq :
  response_with data (pre ++ e :: post) ->
  Py.getitem e "datetime" = Ok ts ->
  Py.getitem e "value" = Ok (JList elems) ->
  Forall (fun el => exists t v,
            Py.getitem el "type" = Ok t /\ Py.getitem el "value" = Ok v) elems ->
  Normalizer.loop_records pre = Ok tp ->
  Normalizer.loop_records post = Ok tq ->
  Normalizer.parse_generation_data data =
  Ok (tp ++ map (fun el => [("datetime", ts); ("type", field el "type");
                            ("value", field el "value")]) elems ++ tq)%list.
Proof.
  intros Hd Hts Hv Hall Hp Hq.
  rewrite (parse_generation_data_loop _ _ Hd), loop_records_middle, Hp, Hq.
  unfold Normalizer.entry_records. rewrite Hts, Hv. simpl.
  rewrite (list_records_map _ _ Hall). reflexivity.
Qed.

Lemma typed_list_entry_records_witness :
  Normalizer.parse_generation_data
    (response [JDict [("datetime", JStr "2023-01-01T00:00:00");
                      ("value", JList [JDict [("type", JStr "Wind"); ("value", JNum 200)];
                                       JDict [("type", JStr "Nuclear"); ("value", JNum 400)]])];
               JDict [("datetime", JStr "2023-01-01T01:00:00"); ("value", JNum 950)]])
  = Ok [[("datetime", JStr "2023-01-01T00:00:00"); ("type", JStr "Wind"); ("value", JNum 200)];
        [("datetime", JStr "2023-01-01T00:00:00"); ("type", JStr "Nuclear"); ("value", JNum 400)];
        [("datetime", JStr "2023-01-01T01:00:00"); ("type", JStr "total"); ("value", JNum 950)]].
Proof.
  apply (typed_list_entry_records _ []
           (JDict [("datetime", JStr "2023-01-01T00:00:00");
                   ("value", JList [JDict [("type", JStr "Wind"); ("value", JNum 200)];
                                    JDict [("type", JStr "Nuclear"); ("value", JNum 400)]])])
           [JDict [("datetime", JStr "2023-01-01T01:00:00"); ("value", JNum 950)]]
           (JStr "2023-01-01T00:00:00")
           [JDict [("type", JStr "Wind"); ("value", JNum 200)];
            JDict [("type", JStr "Nuclear"); ("value", JNum 400)]]
           []
           [[("datetime", JStr "2023-01-01T01:00:00"); ("type", JStr "total"); ("value", JNum 950)]]).
  - apply (response_with_response
             [JDict [("datetime", JStr "2023-01-01T00:00:00");
                     ("value", JList [JDict [("type", JStr "Wind"); ("value", JNum 200)];
                                      JDict [("type", JStr "Nuclear"); ("value", JNum 400)]])];
              JDict [("datetime", JStr "2023-01-01T01:00:00"); ("value", JNum 950)]]).
  - reflexivity.
  - reflexivity.
  - repeat (constructor; [do 2 eexists; split; reflexivity|]). constructor.
  - reflexivity.
  - reflexivity.
Defined.

(** C9, as stated, fails: a typed-list element whose value is a string is
    emitted as a record with that string as its value. *)
Lemma non_numeric_value_emitted :
  exists table,
    Normalizer.parse_generation_data
      (response [JDict [("datetime", JStr "2023-01-01T00:00:00");
                        ("value", JList [JDict [("type", JStr "Wind");
                                                ("value", JStr "n/a")]])]])
    = Ok table /\
    table = [[("datetime", JStr "2023-01-01T00:00:00"); ("type", JStr "Wind");
              ("value", JStr "n/a")]] /\
    all_values_numeric table = false.
Proof. eexists. split; [reflexivity|]. split; reflexivity. Qed.

(** C9, amended.  Whenever the normaliser returns a table: the record of a
    scalar-shaped entry carries the entry's number; and every element of a
    typed-list entry, and every pair of a keyed-mapping entry, is emitted as
    a record that carries the source value unchanged, whatever that value
    is: the two branches check nothing and reject nothing. *)
Theorem source_values_passed_through data values table e ts :
  response_with data values ->
  Normalizer.parse_generation_data data = Ok table ->
  In e values ->
  Py.getitem e "datetime" = Ok ts ->
  (forall v, Py.getitem e "value" = Ok v -> is_number v = true ->
     In [("datetime", ts); ("type", JStr "total"); ("value", v)] table /\
     all_values_numeric [[("datetime", ts); ("type", JStr "total"); ("value", v)]]
     = true) /\
  (forall elems el t v,
     Py.getitem e "value" = Ok (JList elems) -> In el elems ->
     Py.getitem el "type" = Ok t -> Py.getitem el "value" = Ok v ->
     In [("datetime", ts); ("type", t); ("value", v)] table) /\
  (forall d k v,
     Py.getitem e "value" = Ok (JDict d) -> In (k, v) d ->
     In [("datetime", ts); ("type", JStr k); ("value", v)] table).
Proof.
  intros Hd Hp Hin Hts.
  rewrite (parse_generation_data_loop _ _ Hd) in Hp.
  split; [|split].
  - intros v Hv Hn. split; [|simpl; now rewrite Hn].
    apply (loop_records_in _ _ _ [[("datetime", ts); ("type", JStr "total"); ("value", v)]] _ Hp Hin);
      [|now left].
    unfold Normalizer.entry_records. rewrite Hts, Hv. simpl.
    destruct v; simpl in Hn; try discriminate; reflexivity.
  - intros elems el t v Hv Hel Ht Hv'.
    destruct (Normalizer.list_records ts elems) as [recs|err] eqn:Hl.
    + apply (loop_records_in _ _ _ recs _ Hp Hin).
      * unfold Normalizer.entry_records. rewrite Hts, Hv. simpl. exact Hl.
      * eapply list_records_in; eauto.
    + exfalso.
      apply in_split in Hin. destruct Hin as (pre & post & ->).
      rewrite loop_records_middle in Hp.
      unfold Normalizer.entry_records in Hp. rewrite Hts, Hv in Hp. simpl in Hp.
      rewrite Hl in Hp.
      destruct (Normalizer.loop_records pre); discriminate.
  - intros d k v Hv Hkv.
    apply (loop_records_in _ _ _ (Normalizer.dict_records ts d) _ Hp Hin).
    + unfold Normalizer.entry_records. rewrite Hts, Hv. reflexivity.
    + unfold Normalizer.dict_records.
      apply (in_map (fun kv => [("datetime", ts); ("type", JStr (fst kv));
                                ("value", snd kv)]) _ _ Hkv).
Qed.

Lemma source_values_passed_through_witness :
  In [("datetime", JStr "2023-01-01T00:00:00"); ("type", JStr "Wind");
      ("value", JStr "n/a")]
     [[("datetime", JStr "2023-01-01T00:00:00"); ("type", JStr "Wind");
       ("value", JStr "n/a")];
      [("datetime", JStr "2023-01-01T00:00:00"); ("type", JStr "Coal");
       ("value", JNum 300)]].
Proof.
  apply (proj2 (proj2 (source_values_passed_through
           (response [JDict [("datetime", JStr "2023-01-01T00:00:00");
                             ("value", JDict [("Wind", JStr "n/a");
                                              ("Coal", JNum 300)])]])
           [JDict [("datetime", JStr "2023-01-01T00:00:00");
                   ("value", JDict [("Wind", JStr "n/a"); ("Coal", JNum 300)])]]
           _
           (JDict [("datetime", JStr "2023-01-01T00:00:00");
                   ("value", JDict [("Wind", JStr "n/a"); ("Coal", JNum 300)])])
           (JStr "2023-01-01T00:00:00")
           (response_with_response _) eq_refl (or_introl eq_refl) eq_refl))
           [("Wind", JStr "n/a"); ("Coal", JNum 300)] "Wind" (JStr "n/a")
           eq_refl (or_introl eq_refl)).
Defined.

Lemma missing_key_raises d key :
  Py.lookup key d = None -> raises (Py.getitem (JDict d) key).
Proof. intros H. exists (KeyError key). simpl. now rewrite H. Qed.

(** C10. [parse_indicator_data] inspects no shape.  On a payload whose
    indicator-values path is present: if every entry carries both keys, it
    emits one record per entry, in order, with the entry's time stamp and
    its value unchanged, whatever the value is (a null or a string too);
    and if some entry cannot supply its [datetime] or its [value] (a
    missing key, or an entry that is no dictionary), the whole call
    raises. *)
Theorem parse_indicator_data_no_dispatch data values :
  response_with data values ->
  (Forall has_keys values ->
   Normalizer.parse_indicator_data data =
   Ok (map (fun e => [("datetime", field e "datetime");
                      ("value", field e "value")]) values)) /\
  (Exists (fun e => raises (Py.getitem e "datetime") \/
                    raises (Py.getitem e "value")) values ->
   raises (Normalizer.parse_indicator_data data)).
Proof.
  intros Hd. rewrite (parse_indicator_data_loop _ _ Hd). split.
  - apply scalar_records_map.
  - apply scalar_records_raises.
Qed.

Lemma parse_indicator_data_no_dispatch_witness :
  Normalizer.parse_indicator_data
    (response [JDict [("datetime", JStr "2023-01-01T00:00:00"); ("value", JNull)];
               JDict [("datetime", JStr "2023-01-01T01:00:00"); ("value", JStr "n/a")]])
  = Ok [[("datetime", JStr "2023-01-01T00:00:00"); ("value", JNull)];
        [("datetime", JStr "2023-01-01T01:00:00"); ("value", JStr "n/a")]] /\
  raises (Normalizer.parse_indicator_data
            (response [JDict [("datetime", JStr "2023-01-01T00:00:00"); ("value", JNum 900)];
                       JDict [("datetime", JStr "2023-01-01T01:00:00")]])).
Proof.
  split.
  - apply (proj1 (parse_indicator_data_no_dispatch _
             [JDict [("datetime", JStr "2023-01-01T00:00:00"); ("value", JNull)];
              JDict [("datetime", JStr "2023-01-01T01:00:00"); ("value", JStr "n/a")]]
             (response_with_response _))).
    repeat (constructor; [do 2 eexists; split; reflexivity|]). constructor.
  - apply (proj2 (parse_indicator_data_no_dispatch _
             [JDict [("datetime", JStr "2023-01-01T00:00:00"); ("value", JNum 900)];
              JDict [("datetime", JStr "2023-01-01T01:00:00")]]
             (response_with_response _))).
    apply Exists_cons_tl, Exists_cons_hd. right.
    exists (KeyError "value"). reflexivity.
Defined.

(** ** Grouping: the groups are sorted and hold the rows of their key *)

Section GroupByFacts.

Context {K : Type} (cmp : K -> K -> comparison).
Hypothesis cmp_eq : forall a b, cmp a b = Eq <-> a = b.
Hypothesis cmp_antisym : forall a b, cmp a b = CompOpp (cmp b a).
Hypothesis cmp_trans : forall a b c, cmp a b = Lt -> cmp b c = Lt -> cmp a c = Lt.

Lemma cmp_gt_lt a b : cmp a b = Gt -> cmp b a = Lt.
Proof. intros H. rewrite cmp_antisym, H. reflexivity. Qed.

Lemma cmp_lt_gt a b : cmp a b = Lt -> cmp b a = Gt.
Proof. intros H. rewrite cmp_antisym, H. reflexivity. Qed.

Lemma group_insert_above x k v groups :
  (Metrics.keys_lt cmp) x (k, [v]) ->
  Forall ((Metrics.keys_lt cmp) x) groups ->
  Forall ((Metrics.keys_lt cmp) x) (Metrics.group_insert cmp k v groups).
Proof.
  intros Hx. induction 1 as [|[k' vs] rest Hk' Hall IH]; simpl.
  - now constructor.
  - destruct (cmp k k').
    + constructor; [exact Hk' | assumption].
    + repeat constructor; assumption.
    + now constructor.
Qed.

Lemma group_insert_sorted k v groups :
  StronglySorted (Metrics.keys_lt cmp) groups ->
  StronglySorted (Metrics.keys_lt cmp) (Metrics.group_insert cmp k v groups).
Proof.
  induction 1 as [|[k' vs] rest Hs IH Hall]; simpl.
  - repeat constructor.
  - destruct (cmp k k') eqn:Hc.
    + constructor; [assumption|]. exact Hall.
    + constructor; [now constructor|].
      constructor; [exact Hc|].
      eapply Forall_impl; [|exact Hall].
      intros g Hg. unfold Metrics.keys_lt in *. simpl in *.
      now apply (cmp_trans _ k').
    + constructor; [assumption|].
      apply group_insert_above; [|assumption].
      unfold Metrics.keys_lt. simpl. now apply cmp_gt_lt.
Qed.

Lemma group_values_below k groups :
  Forall (fun g => cmp k (fst g) = Lt) groups ->
  Metrics.group_values cmp k groups = [].
Proof.
  induction 1 as [|[k' vs] rest Hk _ IH]; simpl; [reflexivity|].
  simpl in Hk. now rewrite Hk.
Qed.

Lemma group_values_insert k k' v groups :
  StronglySorted (Metrics.keys_lt cmp) groups ->
  Metrics.group_values cmp k (Metrics.group_insert cmp k' v groups) =
  if Metrics.is_key cmp k k'
  then (Metrics.group_values cmp k groups ++ [v])%list
  else Metrics.group_values cmp k groups.
Proof.
  unfold Metrics.is_key.
  induction 1 as [|[h vs] rest Hs IH Hall]; simpl.
  - destruct (cmp k k'); reflexivity.
  - destruct (cmp k' h) eqn:Hc; simpl.
    + apply cmp_eq in Hc. subst h.
      destruct (cmp k k'); reflexivity.
    + destruct (cmp k k') eqn:Hk; try reflexivity.
      apply cmp_eq in Hk. subst k'. rewrite Hc.
      rewrite group_values_below; [reflexivity|].
      eapply Forall_impl; [|exact Hall].
      intros g Hg. unfold Metrics.keys_lt in Hg. simpl in Hg.
      now apply (cmp_trans _ h).
    + rewrite IH.
      destruct (cmp k k') eqn:Hk; try reflexivity.
      apply cmp_eq in Hk. subst k'. rewrite Hc. reflexivity.
Qed.

Lemma group_values_in k vs groups :
  StronglySorted (Metrics.keys_lt cmp) groups ->
  In (k, vs) groups ->
  Metrics.group_values cmp k groups = vs.
Proof.
  induction 1 as [|[h ws] rest Hs IH Hall]; simpl; intros Hin.
  - contradiction.
  - destruct Hin as [Heq|Hin].
    + injection Heq as -> ->.
      now rewrite (proj2 (cmp_eq k k) eq_refl).
    + rewrite Forall_forall in Hall.
      specialize (Hall _ Hin). unfold Metrics.keys_lt in Hall.
      simpl in Hall. rewrite (cmp_lt_gt _ _ Hall). now apply IH.
Qed.

Lemma group_insert_keys k k' v groups :
  In k (map fst (Metrics.group_insert cmp k' v groups)) <->
  k = k' \/ In k (map fst groups).
Proof.
  induction groups as [|[h vs] rest IH]; simpl.
  - intuition.
  - destruct (cmp k' h) eqn:Hc; simpl.
    + apply cmp_eq in Hc. subst h. intuition.
    + intuition.
    + rewrite IH. intuition.
Qed.

(** The loop of [groupby], from any sorted groups. *)
Lemma groupby_from_facts rows : forall groups,
  StronglySorted (Metrics.keys_lt cmp) groups ->
  let result :=
    fold_left (fun g kv => Metrics.group_insert cmp (fst kv) (snd kv) g) rows groups in
  StronglySorted (Metrics.keys_lt cmp) result /\
  (forall k, Metrics.group_values cmp k result =
             (Metrics.group_values cmp k groups ++ Metrics.rows_of cmp k rows)%list) /\
  (forall k, In k (map fst result) <-> In k (map fst groups) \/ In k (map fst rows)).
Proof.
  induction rows as [|[k' v] rows IH]; intros groups Hs; simpl.
  - split; [assumption|]. split.
    + intros k. unfold Metrics.rows_of. simpl. now rewrite app_nil_r.
    + intuition.
  - destruct (IH _ (group_insert_sorted k' v _ Hs)) as (H1 & H2 & H3).
    split; [exact H1|]. split.
    + intros k. rewrite H2, (group_values_insert _ _ _ _ Hs).
      unfold Metrics.rows_of. simpl.
      destruct (Metrics.is_key cmp k k'); simpl.
      * now rewrite <- app_assoc.
      * reflexivity.
    + intros k. rewrite H3, group_insert_keys. intuition.
Qed.

Lemma groupby_facts rows :
  StronglySorted (Metrics.keys_lt cmp) (Metrics.groupby cmp rows) /\
  (forall k vs, In (k, vs) (Metrics.groupby cmp rows) ->
                vs = Metrics.rows_of cmp k rows) /\
  (forall k, In k (map fst (Metrics.groupby cmp rows)) <-> In k (map fst rows)).
Proof.
  destruct (groupby_from_facts rows [] (SSorted_nil _)) as (H1 & H2 & H3).
  split; [exact H1|]. split.
  - intros k vs Hin.
    rewrite <- (group_values_in _ _ _ H1 Hin). apply H2.
  - intros k. rewrite (H3 k). simpl. intuition.
Qed.

End GroupByFacts.

(** ** Strings are ordered by [String.compare] *)

Lemma string_compare_eq a b : String.compare a b = Eq <-> a = b.
Proof. exact (String_as_OT.cmp_eq a b). Qed.

Lemma string_compare_trans a b c :
  String.compare a b = Lt -> String.compare b c = Lt -> String.compare a c = Lt.
Proof.
  intros H1 H2. apply String_as_OT.cmp_lt.
  apply (String_as_OT.lt_trans a b c); now apply String_as_OT.cmp_lt.
Qed.

Lemma string_compare_irrefl a : String.compare a a <> Lt.
Proof. now rewrite (proj2 (string_compare_eq a a) eq_refl). Qed.

(** ** Sums *)

Local Open Scope Q_scope.

Lemma fold_left_Qplus xs : forall a,
  fold_left Qplus xs a == a + fold_right Qplus 0 xs.
Proof.
  induction xs as [|x xs IH]; simpl; intros a.
  - ring.
  - rewrite IH. ring.
Qed.

Lemma sum_total_where p df :
  Metrics.sum (map Metrics.value (filter p df)) == Metrics.total_where p df.
Proof.
  unfold Metrics.sum. rewrite fold_left_Qplus.
  induction df as [|r df IH]; simpl.
  - ring.
  - destruct (p r); simpl.
    + rewrite <- IH. ring.
    + exact IH.
Qed.

Lemma total_where_ext p q df :
  (forall r, p r = q r) ->
  Metrics.total_where p df = Metrics.total_where q df.
Proof.
  intros H. induction df as [|r df IH]; simpl; [reflexivity|].
  now rewrite H, IH.
Qed.

Lemma isin_renewable r :
  Metrics.isin Metrics.renewable_types (Metrics.type r) = Metrics.renewable r.
Proof.
  unfold Metrics.renewable, Metrics.isin.
  destruct (in_dec string_dec (Metrics.type r) Metrics.renewable_types) as [Hin|Hnin].
  - apply existsb_exists. exists (Metrics.type r). split; [assumption|].
    apply String.eqb_refl.
  - destruct (existsb _ _) eqn:He; [|reflexivity].
    apply existsb_exists in He. destruct He as (x & Hx & Heq).
    apply String.eqb_eq in Heq. subst x. contradiction.
Qed.

Lemma filter_every df : filter Metrics.every df = df.
Proof.
  induction df as [|r df IH]; simpl; [reflexivity | now rewrite IH].
Qed.

Lemma sum_total df :
  Metrics.sum (map Metrics.value df) == Metrics.total_where Metrics.every df.
Proof. rewrite <- (filter_every df) at 1. apply sum_total_where. Qed.

Lemma Qeq_eq_ext (a b : Q) : a = b -> a == b.
Proof. intros ->. reflexivity. Qed.

(** *** Aggregation *)

Lemma agg_sorted {K} (cmp : K -> K -> comparison) f groups :
  StronglySorted (@Metrics.keys_lt K cmp (list Q)) groups ->
  StronglySorted (@Metrics.keys_lt K cmp Q) (Metrics.agg f groups).
Proof.
  induction 1 as [|g rest Hs IH Hall]; simpl; constructor; [assumption|].
  unfold Metrics.agg. apply Forall_map.
  eapply Forall_impl; [|exact Hall]. intros g' Hg. exact Hg.
Qed.

Lemma agg_keys {K} f (groups : list (K * list Q)) :
  map fst (Metrics.agg f groups) = map fst groups.
Proof. unfold Metrics.agg. rewrite map_map. reflexivity. Qed.

Lemma agg_in {K} f (groups : list (K * list Q)) k s :
  In (k, s) (Metrics.agg f groups) ->
  exists vs, In (k, vs) groups /\ s = f vs.
Proof.
  unfold Metrics.agg. intros H. apply in_map_iff in H.
  destruct H as ([k' vs] & Heq & Hin). simpl in Heq.
  injection Heq as <- <-. now exists vs.
Qed.

Lemma sorted_keys_nodup {K V} (cmp : K -> K -> comparison) (l : list (K * V)) :
  (forall a, cmp a a <> Lt) ->
  StronglySorted (Metrics.keys_lt cmp) l ->
  NoDup (map fst l).
Proof.
  intros Hirr. induction 1 as [|x rest Hs IH Hall]; simpl; constructor; [|assumption].
  intros Hin. apply in_map_iff in Hin. destruct Hin as (y & Hy & Hin).
  rewrite Forall_forall in Hall. specialize (Hall _ Hin).
  unfold Metrics.keys_lt in Hall. rewrite Hy in Hall. now apply (Hirr (fst x)).
Qed.

Lemma aggregate_by_type_groupby df :
  Metrics.aggregate_by_type df =
  Metrics.agg Metrics.sum
    (Metrics.groupby String.compare
       (map (fun r => (Metrics.type r, Metrics.value r)) df)).
Proof. destruct df; reflexivity. Qed.

Lemma rows_of_category c df :
  Metrics.rows_of String.compare c
    (map (fun r => (Metrics.type r, Metrics.value r)) df) =
  map Metrics.value (filter (Metrics.of_category c) df).
Proof.
  unfold Metrics.rows_of, Metrics.of_category, Metrics.is_key.
  induction df as [|r df IH]; simpl; [reflexivity|].
  destruct (string_dec (Metrics.type r) c) as [<-|Hne].
  - rewrite (proj2 (string_compare_eq _ _) eq_refl). simpl. now rewrite IH.
  - destruct (String.compare c (Metrics.type r)) eqn:Hc; try exact IH.
    apply string_compare_eq in Hc. now subst c.
Qed.

(** The package's test of the daily average: two days, two records each. *)
Lemma daily_average_test :
  Metrics.calculate_daily_average Metrics.iso_to_datetime
    [Metrics.mkRow (Metrics.Text "2023-01-01 12:00:00") "Wind" 100;
     Metrics.mkRow (Metrics.Text "2023-01-01 18:00:00") "Wind" 200;
     Metrics.mkRow (Metrics.Text "2023-01-02 12:00:00") "Wind" 300;
     Metrics.mkRow (Metrics.Text "2023-01-02 18:00:00") "Wind" 400]
  = Ok [((Metrics.mkDate 2023 1 1, "Wind"), 300 # 2);
        ((Metrics.mkDate 2023 1 2, "Wind"), 700 # 2)].
Proof. reflexivity. Qed.

(** * Further properties of the code *)

(** ** The normaliser *)

Lemma list_records_ok_iff ts elems :
  (exists recs, Normalizer.list_records ts elems = Ok recs) <->
  Forall element_ok elems.
Proof.
  split.
  - induction elems as [|el elems IH]; intros (recs & H); [constructor|].
    simpl in H.
    apply bind_ok in H. destruct H as (t & Ht & H).
    apply bind_ok in H. destruct H as (v & Hv & H).
    apply bind_ok in H. destruct H as (more & Hm & _).
    constructor; [now exists t, v | apply IH; now exists more].
  - intros H. rewrite (list_records_map _ _ H). eauto.
Qed.

Lemma entry_records_ok_iff e :
  (exists recs, Normalizer.entry_records e = Ok recs) <-> entry_ok e.
Proof.
  unfold Normalizer.entry_records, entry_ok, has_keys. split.
  - intros (recs & H).
    apply bind_ok in H. destruct H as (ts & Hts & H).
    apply bind_ok in H. destruct H as (v & Hv & H).
    split; [now exists ts, v|].
    intros elems He. rewrite Hv in He. injection He as ->.
    apply (list_records_ok_iff ts). now exists recs.
  - intros ((ts & v & Hts & Hv) & Hl). rewrite Hts, Hv. simpl.
    destruct v; eauto.
    apply list_records_ok_iff. now apply Hl.
Qed.

Lemma loop_records_ok_iff values :
  (exists table, Normalizer.loop_records values = Ok table) <->
  Forall entry_ok values.
Proof.
  induction values as [|e values IH]; simpl.
  - split; [constructor | eauto].
  - split.
    + intros (table & H).
      apply bind_ok in H. destruct H as (recs & He & H).
      apply bind_ok in H. destruct H as (more & Hm & _).
      constructor.
      * apply entry_records_ok_iff. now exists recs.
      * apply IH. now exists more.
    + intros H. inversion H as [|? ? He Hrest]; subst.
      apply entry_records_ok_iff in He. destruct He as (recs & ->).
      apply IH in Hrest. destruct Hrest as (more & ->).
      simpl. eauto.
Qed.

(** X1. An entry whose value is a keyed mapping contributes one record per
    pair, in the order of the mapping's items, with the key as category and
    the pair's value as value. *)
Theorem keyed_mapping_entry_records data pre e post ts d tp tq :
  response_with data (pre ++ e :: post) ->
  Py.getitem e "datetime" = Ok ts ->
  Py.getitem e "value" = Ok (JDict d) ->
  Normalizer.loop_records pre = Ok tp ->
  Normalizer.loop_records post = Ok tq ->
  Normalizer.parse_generation_data data =
  Ok (tp ++ map (fun kv => [("datetime", ts); ("type", JStr (fst kv));
                            ("value", snd kv)]) d ++ tq)%list.
Proof.
  intros Hd Hts Hv Hp Hq.
  rewrite (parse_generation_data_loop _ _ Hd), loop_records_middle, Hp, Hq.
  unfold Normalizer.entry_records. rewrite Hts, Hv. reflexivity.
Qed.

Lemma keyed_mapping_entry_records_witness :
  Normalizer.parse_generation_data
    (response [JDict [("datetime", JStr "2023-01-01T00:00:00");
                      ("value", JDict [("Wind", JNum 200); ("Nuclear", JNum 400)])]])
  = Ok [[("datetime", JStr "2023-01-01T00:00:00"); ("type", JStr "Wind"); ("value", JNum 200)];
        [("datetime", JStr "2023-01-01T00:00:00"); ("type", JStr "Nuclear"); ("value", JNum 400)]].
Proof.
  apply (keyed_mapping_entry_records _ []
           (JDict [("datetime", JStr "2023-01-01T00:00:00");
                   ("value", JDict [("Wind", JNum 200); ("Nuclear", JNum 400)])])
           [] (JStr "2023-01-01T00:00:00")
           [("Wind", JNum 200); ("Nuclear", JNum 400)] [] []).
  - apply (response_with_response
             [JDict [("datetime", JStr "2023-01-01T00:00:00");
                     ("value", JDict [("Wind", JNum 200); ("Nuclear", JNum 400)])]]).
  - reflexivity.
  - reflexivity.
  - reflexivity.
  - reflexivity.
Defined.

(** X2. On a payload whose indicator-values path is present, the normaliser
    returns a table exactly when every entry supplies its [datetime] and its
    [value] and every element of a list-shaped value supplies its [type]
    and its [value]; otherwise it raises. *)
Theorem parse_generation_data_ok_iff data values :
  response_with data values ->
  (exists table, Normalizer.parse_generation_data data = Ok table) <->
  Forall entry_ok values.
Proof.
  intros Hd. rewrite (parse_generation_data_loop _ _ Hd).
  apply loop_records_ok_iff.
Qed.

Lemma parse_generation_data_ok_iff_witness :
  (exists table,
      Normalizer.parse_generation_data
        (response [JDict [("datetime", JStr "2023-01-01T00:00:00"); ("value", JNull)];
                   JDict [("datetime", JStr "2023-01-01T01:00:00");
                          ("value", JList [JDict [("type", JStr "Wind");
                                                  ("value", JNum 200)]])]])
      = Ok table) /\
  ~ Forall entry_ok [JDict [("datetime", JStr "2023-01-01T00:00:00")]].
Proof.
  split.
  - apply (proj2 (parse_generation_data_ok_iff _ _ (response_with_response _))).
    repeat constructor.
    + do 2 eexists. split; reflexivity.
    + intros elems H. discriminate H.
    + do 2 eexists. split; reflexivity.
    + intros elems H. injection H as <-.
      repeat constructor. do 2 eexists. split; reflexivity.
  - intros H.
    apply (proj2 (parse_generation_data_ok_iff _ _ (response_with_response _))) in H.
    destruct H as (table & H). discriminate H.
Defined.

(** X3. The loop is all-or-nothing on an exception: the first entry that
    raises makes the whole call raise its exception, whatever was parsed
    before it and whatever follows it. *)
Theorem first_failing_entry_aborts data pre e post err :
  response_with data (pre ++ e :: post) ->
  Forall entry_ok pre ->
  Normalizer.entry_records e = Raise err ->
  Normalizer.parse_generation_data data = Raise err.
Proof.
  intros Hd Hpre He.
  rewrite (parse_generation_data_loop _ _ Hd), loop_records_middle, He.
  apply loop_records_ok_iff in Hpre. destruct Hpre as (tp & ->). reflexivity.
Qed.

Lemma first_failing_entry_aborts_witness :
  Normalizer.parse_generation_data
    (response [JDict [("datetime", JStr "2023-01-01T00:00:00"); ("value", JNum 900)];
               JDict [("datetime", JStr "2023-01-01T01:00:00")];
               JDict [("datetime", JStr "2023-01-01T02:00:00"); ("value", JNum 950)]])
  = Raise (KeyError "value").
Proof.
  apply (first_failing_entry_aborts _
           [JDict [("datetime", JStr "2023-01-01T00:00:00"); ("value", JNum 900)]]
           (JDict [("datetime", JStr "2023-01-01T01:00:00")])
           [JDict [("datetime", JStr "2023-01-01T02:00:00"); ("value", JNum 950)]]).
  - apply (response_with_response
             [JDict [("datetime", JStr "2023-01-01T00:00:00"); ("value", JNum 900)];
              JDict [("datetime", JStr "2023-01-01T01:00:00")];
              JDict [("datetime", JStr "2023-01-01T02:00:00"); ("value", JNum 950)]]).
  - repeat constructor.
    + do 2 eexists. split; reflexivity.
    + intros elems H. discriminate H.
  - reflexivity.
Defined.

Lemma list_records_columns ts elems recs :
  Normalizer.list_records ts elems = Ok recs ->
  Forall (fun r => columns_of r = ["datetime"; "type"; "value"]) recs.
Proof.
  revert recs. induction elems as [|el elems IH]; simpl; intros recs H.
  - injection H as <-. constructor.
  - apply bind_ok in H. destruct H as (t & _ & H).
    apply bind_ok in H. destruct H as (v & _ & H).
    apply bind_ok in H. destruct H as (more & Hm & H).
    injection H as <-. constructor; [reflexivity | now apply IH].
Qed.

Lemma entry_records_columns e recs :
  Normalizer.entry_records e = Ok recs ->
  Forall (fun r => columns_of r = ["datetime"; "type"; "value"]) recs.
Proof.
  unfold Normalizer.entry_records. intros H.
  apply bind_ok in H. destruct H as (ts & _ & H).
  apply bind_ok in H. destruct H as (v & _ & H).
  destruct v; try (injection H as <-; repeat constructor).
  - now apply (list_records_columns ts l).
  - unfold Normalizer.dict_records. apply Forall_map.
    apply Forall_forall. reflexivity.
Qed.

Lemma loop_records_columns values table :
  Normalizer.loop_records values = Ok table ->
  Forall (fun r => columns_of r = ["datetime"; "type"; "value"]) table.
Proof.
  revert table. induction values as [|e values IH]; simpl; intros table H.
  - injection H as <-. constructor.
  - apply bind_ok in H. destruct H as (recs & He & H).
    apply bind_ok in H. destruct H as (more & Hm & H).
    injection H as <-. apply Forall_app. split.
    + now apply (entry_records_columns e).
    + now apply IH.
Qed.

(** X4. Whatever the payload, every row of a table the normaliser returns
    has exactly the columns [datetime], [type], [value], in this order. *)
Theorem parse_generation_data_columns data table :
  Normalizer.parse_generation_data data = Ok table ->
  Forall (fun r => columns_of r = ["datetime"; "type"; "value"]) table.
Proof.
  unfold Normalizer.parse_generation_data. intros H.
  destruct (negb (Py.truthy data)); [injection H as <-; constructor|].
  apply bind_ok in H. destruct H as (has & _ & H).
  destruct (negb has); [injection H as <-; constructor|].
  apply bind_ok in H. destruct H as (ind & _ & H).
  apply bind_ok in H. destruct H as (values & _ & H).
  apply bind_ok in H. destruct H as (items & _ & H).
  now apply (loop_records_columns items).
Qed.

Lemma parse_generation_data_columns_witness :
  Forall (fun r => columns_of r = ["datetime"; "type"; "value"])
    [[("datetime", JStr "2023-01-01T00:00:00"); ("type", JStr "total"); ("value", JNum 900)];
     [("datetime", JStr "2023-01-01T01:00:00"); ("type", JStr "Wind"); ("value", JNum 200)]].
Proof.
  apply (parse_generation_data_columns
           (response [JDict [("datetime", JStr "2023-01-01T00:00:00"); ("value", JNum 900)];
                      JDict [("datetime", JStr "2023-01-01T01:00:00");
                             ("value", JDict [("Wind", JNum 200)])]])).
  reflexivity.
Defined.

(** X5. A payload that is no dictionary never yields records and never a
    [KeyError]: both parsers return the empty frame (a falsy payload, or a
    string or list that does not contain ["indicator"]) or raise
    [TypeError] (a non-zero number, [true], or a string or list that does
    contain it). *)
Theorem non_dict_payload data :
  (forall d, data <> JDict d) ->
  (Normalizer.parse_generation_data data = Ok empty_frame \/
   Normalizer.parse_generation_data data = Raise TypeError) /\
  (Normalizer.parse_indicator_data data = Ok empty_frame \/
   Normalizer.parse_indicator_data data = Raise TypeError) /\
  (forall q, ~ q == 0 ->
     Normalizer.parse_generation_data (JNum q) = Raise TypeError).
Proof.
  intros Hnd.
  unfold Normalizer.parse_generation_data, Normalizer.parse_indicator_data.
  split; [|split].
  - destruct data as [|b|q|s|l|d]; simpl.
    + now left.
    + destruct b; simpl; [now right | now left].
    + destruct (Qeq_bool q 0); simpl; [now left | now right].
    + destruct (String.eqb s ""); simpl; [now left|].
      destruct (Py.substring_in "indicator" s); simpl; [now right | now left].
    + destruct l as [|x l]; [now left|].
      cbv beta iota delta [negb Py.truthy Py.contains bind].
      destruct (existsb (Py.is_str "indicator") (x :: l)); simpl; [now right | now left].
    + now destruct (Hnd d).
  - destruct data as [|b|q|s|l|d]; simpl.
    + now left.
    + destruct b; simpl; [now right | now left].
    + destruct (Qeq_bool q 0); simpl; [now left | now right].
    + destruct (String.eqb s ""); simpl; [now left|].
      destruct (Py.substring_in "indicator" s); simpl; [now right | now left].
    + destruct l as [|x l]; [now left|].
      cbv beta iota delta [negb Py.truthy Py.contains bind].
      destruct (existsb (Py.is_str "indicator") (x :: l)); simpl; [now right | now left].
    + now destruct (Hnd d).
  - intros q Hq. simpl.
    destruct (Qeq_bool q 0) eqn:Hz; [|reflexivity].
    apply Qeq_bool_iff in Hz. contradiction.
Qed.

Lemma non_dict_payload_witness :
  (Normalizer.parse_generation_data (JStr "unexpected") = Ok empty_frame \/
   Normalizer.parse_generation_data (JStr "unexpected") = Raise TypeError) /\
  Normalizer.parse_generation_data (JNum 5) = Raise TypeError.
Proof.
  split.
  - apply (proj1 (non_dict_payload (JStr "unexpected")
                    (fun d H => eq_ind (JStr "unexpected")
                                  (fun x => match x with JStr _ => True | _ => False end)
                                  I _ H))).
  - apply (proj2 (proj2 (non_dict_payload JNull
                    (fun d H => eq_ind JNull
                                  (fun x => match x with JNull => True | _ => False end)
                                  I _ H))) 5).
    intros H. discriminate H.
Defined.

(** X6. On a series whose entries all carry a number, the two parsers
    agree: the table of [parse_indicator_data] is the table of
    [parse_generation_data] without its [type] column. *)
Theorem scalar_series_parsers_agree data values :
  response_with data values ->
  Forall (fun e => exists ts v,
            Py.getitem e "datetime" = Ok ts /\
            Py.getitem e "value" = Ok v /\ is_number v = true) values ->
  exists generation indicator,
    Normalizer.parse_generation_data data = Ok generation /\
    Normalizer.parse_indicator_data data = Ok indicator /\
    map (drop_column "type") generation = indicator.
Proof.
  intros Hd Hall.
  rewrite (parse_generation_data_loop _ _ Hd), (parse_indicator_data_loop _ _ Hd).
  clear Hd. induction Hall as [|e values (ts & v & Hts & Hv & Hn) _ IH]; simpl.
  - exists [], []. repeat split.
  - destruct IH as (g & i & -> & -> & <-).
    unfold Normalizer.entry_records. rewrite Hts, Hv. simpl.
    destruct v; simpl in Hn; try discriminate; simpl; eauto.
Qed.

Lemma scalar_series_parsers_agree_witness :
  exists generation indicator,
    Normalizer.parse_generation_data
      (response [JDict [("datetime", JStr "2023-01-01T00:00:00"); ("value", JNum 900)]])
    = Ok generation /\
    Normalizer.parse_indicator_data
      (response [JDict [("datetime", JStr "2023-01-01T00:00:00"); ("value", JNum 900)]])
    = Ok indicator /\
    map (drop_column "type") generation = indicator.
Proof.
  apply (scalar_series_parsers_agree _
           [JDict [("datetime", JStr "2023-01-01T00:00:00"); ("value", JNum 900)]]
           (response_with_response _)).
  repeat constructor. do 2 eexists. repeat split; reflexivity.
Defined.

(** X7. Both parsers raise [KeyError('values')] on every dictionary whose
    ["indicator"] entry is a dictionary without ["values"]: the guard tests
    for ["indicator"] only. *)
Theorem missing_values_key_error d ind :
  Py.lookup "indicator" d = Some (JDict ind) ->
  Py.lookup "values" ind = None ->
  Normalizer.parse_generation_data (JDict d) = Raise (KeyError "values") /\
  Normalizer.parse_indicator_data (JDict d) = Raise (KeyError "values").
Proof.
  intros Hi Hv.
  unfold Normalizer.parse_generation_data, Normalizer.parse_indicator_data.
  rewrite (lookup_some_truthy _ _ _ Hi). simpl.
  rewrite Hi. simpl. rewrite Hv. split; reflexivity.
Qed.

Lemma missing_values_key_error_witness :
  Normalizer.parse_generation_data
    (JDict [("indicator", JDict [("id", JNum 1293); ("name", JStr "Demanda real")])])
  = Raise (KeyError "values") /\
  Normalizer.parse_indicator_data
    (JDict [("indicator", JDict [("id", JNum 1293); ("name", JStr "Demanda real")])])
  = Raise (KeyError "values").
Proof.
  apply (missing_values_key_error
           [("indicator", JDict [("id", JNum 1293); ("name", JStr "Demanda real")])]
           [("id", JNum 1293); ("name", JStr "Demanda real")]); reflexivity.
Defined.

(** ** The guards of [to_dataframe] *)

(** X8. The guards of [to_dataframe] never raise a [KeyError], and the
    frame is built only from a non-empty values object: the call returns
    the empty frame, or raises [TypeError] (a payload or an indicator that
    is no dictionary), or is the frame built from [data["indicator"]] and
    its truthy ["values"]. *)
Theorem to_dataframe_guards frame_of data :
  Client.to_dataframe frame_of data = Ok empty_frame \/
  Client.to_dataframe frame_of data = Raise TypeError \/
  exists indicator values,
    Py.getitem data "indicator" = Ok indicator /\
    Py.getitem indicator "values" = Ok values /\
    Py.truthy values = true /\
    Client.to_dataframe frame_of data = frame_of indicator values.
Proof.
  unfold Client.to_dataframe.
  destruct (Py.truthy data) eqn:Ht; simpl; [|now left].
  destruct data as [|b|q|s|l|d]; simpl; try (now right; left).
  - destruct (Py.substring_in "indicator" s); simpl; [now right; left | now left].
  - destruct (existsb (Py.is_str "indicator") l); simpl; [now right; left | now left].
  - destruct (Py.lookup "indicator" d) as [ind|] eqn:Hi; simpl; [|now left].
    destruct ind as [|b|q|s|l|di]; simpl; try (now right; left).
    + destruct (Py.substring_in "values" s); simpl; [now right; left | now left].
    + destruct (existsb (Py.is_str "values") l); simpl; [now right; left | now left].
    + destruct (Py.lookup "values" di) as [values|] eqn:Hv; simpl; [|now left].
      destruct (Py.truthy values) eqn:Htv; simpl; [|now left].
      right; right. exists (JDict di), values. simpl. rewrite Hv. auto.
Qed.

(** ** [extract_time_series] *)

Lemma lookup_not_in key d :
  ~ In key (map fst d) -> Py.lookup key d = None.
Proof.
  induction d as [|[k v] d IH]; simpl; intros H; [reflexivity|].
  destruct (String.eqb key k) eqn:He.
  - apply String.eqb_eq in He. subst. exfalso. apply H. now left.
  - apply IH. intros Hin. apply H. now right.
Qed.

Lemma setitem_new key v d :
  ~ In key (map fst d) -> TimeSeries.setitem key v d = (d ++ [(key, v)])%list.
Proof.
  induction d as [|[k x] d IH]; simpl; intros H; [reflexivity|].
  destruct (String.eqb key k) eqn:He.
  - apply String.eqb_eq in He. subst. exfalso. apply H. now left.
  - rewrite IH; [reflexivity|]. intros Hin. apply H. now right.
Qed.

Lemma copy_field_leading e k x :
  existsb (String.eqb k) ["datetime"; "value"] = true ->
  TimeSeries.copy_field e (k, x) = e.
Proof. intros H. unfold TimeSeries.copy_field. cbn [fst snd]. now rewrite H. Qed.

Lemma copy_field_type d t v acc x :
  TimeSeries.copy_field
    ([("datetime", d); ("type", t); ("value", v)] ++ acc)%list ("type", x) =
  ([("datetime", d); ("type", x); ("value", v)] ++ acc)%list.
Proof. reflexivity. Qed.

Lemma copy_field_extra d t v acc k x :
  TimeSeries.is_extra (k, x) = true ->
  ~ In k (map fst acc) ->
  TimeSeries.copy_field
    ([("datetime", d); ("type", t); ("value", v)] ++ acc)%list (k, x) =
  ([("datetime", d); ("type", t); ("value", v)] ++ acc ++ [(k, x)])%list.
Proof.
  unfold TimeSeries.is_extra, TimeSeries.copy_field. cbn [fst snd existsb].
  intros Hex Hacc.
  destruct (String.eqb k "datetime") eqn:Hdt; [discriminate|].
  destruct (String.eqb k "type") eqn:Hty; [discriminate|].
  destruct (String.eqb k "value") eqn:Hva; [discriminate|].
  cbn [orb]. rewrite app_assoc. apply setitem_new.
  cbn. intros [H|[H|[H|H]]].
  - subst k. discriminate Hdt.
  - subst k. discriminate Hty.
  - subst k. discriminate Hva.
  - contradiction.
Qed.

Lemma key_cases k :
  k = "datetime" \/ k = "value" \/ k = "type" \/
  (forall x, TimeSeries.is_extra (k, x) = true).
Proof.
  unfold TimeSeries.is_extra. cbn [fst existsb].
  destruct (String.eqb k "datetime") eqn:Hdt; [apply String.eqb_eq in Hdt; auto|].
  destruct (String.eqb k "value") eqn:Hva; [apply String.eqb_eq in Hva; auto|].
  destruct (String.eqb k "type") eqn:Hty; [apply String.eqb_eq in Hty; auto|].
  now do 3 right.
Qed.

Lemma lookup_other key k x d :
  key <> k -> Py.lookup key ((k, x) :: d) = Py.lookup key d.
Proof.
  intros H. simpl. destruct (String.eqb key k) eqn:He; [|reflexivity].
  apply String.eqb_eq in He. contradiction.
Qed.

Lemma copy_extras_closed d v fields : forall t acc,
  NoDup (map fst fields) ->
  (forall k, In k (map fst acc) -> ~ In k (map fst fields)) ->
  (forall k x, In k (map fst acc) -> TimeSeries.is_extra (k, x) = true) ->
  TimeSeries.copy_extras fields
    ([("datetime", d); ("type", t); ("value", v)] ++ acc)%list =
  ([("datetime", d);
    ("type", match Py.lookup "type" fields with Some x => x | None => t end);
    ("value", v)] ++ acc ++ filter TimeSeries.is_extra fields)%list.
Proof.
  unfold TimeSeries.copy_extras.
  induction fields as [|[k x] fields IH]; intros t acc Hnd Hdis Hex.
  - simpl. now rewrite app_nil_r.
  - inversion Hnd as [|? ? Hk Hnd']; subst.
    assert (Hdis' : forall k', In k' (map fst acc) -> ~ In k' (map fst fields)).
    { intros k' Hin Hin'. apply (Hdis k' Hin). now right. }
    cbn [fold_left].
    destruct (key_cases k) as [->|[->|[->|Hextra]]].
    + rewrite copy_field_leading by reflexivity.
      rewrite (IH t acc Hnd' Hdis' Hex). reflexivity.
    + rewrite copy_field_leading by reflexivity.
      rewrite (IH t acc Hnd' Hdis' Hex). reflexivity.
    + rewrite copy_field_type.
      rewrite (IH x acc Hnd' Hdis' Hex).
      rewrite (lookup_not_in _ _ Hk). reflexivity.
    + rewrite (copy_field_extra d t v acc k x (Hextra x)).
      2:{ intros Hin. apply (Hdis k Hin). now left. }
      rewrite (IH t (acc ++ [(k, x)])%list Hnd').
      * assert (Hne : "type" <> k).
        { intros <-. specialize (Hextra x). discriminate Hextra. }
        rewrite (lookup_other _ _ _ _ Hne).
        cbn [filter]. rewrite (Hextra x). now rewrite <- !app_assoc.
      * intros k' Hin. rewrite map_app in Hin. apply in_app_or in Hin.
        destruct Hin as [Hin|[<-|[]]]; [now apply Hdis'|exact Hk].
      * intros k' x' Hin. rewrite map_app in Hin. apply in_app_or in Hin.
        destruct Hin as [Hin|[<-|[]]]; [now apply Hex|]. apply Hextra.
Qed.

Lemma value_entry_closed item title values fields :
  TimeSeries.item_with item title values ->
  TimeSeries.value_ok fields ->
  TimeSeries.value_entry item (JDict fields) = Ok (TimeSeries.entry_of title fields).
Proof.
  intros (di & attributes & -> & Ha & Ht & _) (Hnd & (d & Hd) & (v & Hv)).
  unfold TimeSeries.value_entry, TimeSeries.entry_of, field. simpl.
  rewrite Hd, Ha. simpl. rewrite Ht, Hv. simpl.
  apply f_equal.
  apply (copy_extras_closed d v fields title [] Hnd); [intros k [] | intros k x []].
Qed.

Lemma values_entries_closed item title values vs :
  TimeSeries.item_with item title values ->
  Forall TimeSeries.value_ok vs ->
  TimeSeries.values_entries item (map JDict vs) =
  Ok (map (TimeSeries.entry_of title) vs).
Proof.
  intros Hi. induction 1 as [|fields rest Hf Hrest IH]; [reflexivity|].
  cbn [map TimeSeries.values_entries].
  rewrite (value_entry_closed _ _ _ _ Hi Hf). cbn [bind].
  rewrite IH. reflexivity.
Qed.

(** X9. On a payload whose items each carry a title and a list of
    well-formed values, [extract_time_series] without a filter builds its
    frame from one entry dictionary per value, item after item and value
    after value; each dictionary has the value's [datetime], the item's
    title as [type] and the value's [value] as its first three keys,
    followed by the other fields of the value.  (The columns of the frame
    are the union of the keys of these dictionaries; a cell whose
    dictionary lacks the key is [NaN].) *)
Theorem extract_time_series_rows d
        (included : list (json * (json * list (list (string * json))))) :
  Py.lookup "included" d = Some (JList (map fst included)) ->
  Forall (fun i => TimeSeries.item_with (fst i) (fst (snd i)) (snd (snd i)) /\
                   Forall TimeSeries.value_ok (snd (snd i))) included ->
  TimeSeries.extract_time_series (JDict d) None =
  Ok (flat_map (fun i => map (TimeSeries.entry_of (fst (snd i))) (snd (snd i)))
               included).
Proof.
  intros Hd Hall. unfold TimeSeries.extract_time_series.
  rewrite (lookup_some_truthy _ _ _ Hd). simpl. rewrite Hd. simpl.
  clear Hd. induction Hall as [|[item [title values]] rest (Hi & Hv) _ IH]; simpl.
  - reflexivity.
  - rewrite IH. cbn [fst snd] in Hi, Hv. cbn [fst snd bind].
    unfold TimeSeries.item_entries. cbn [TimeSeries.skipped bind].
    pose proof Hi as (di & attributes & Hitem & Ha & Ht & Hvs).
    assert (Hg : Py.getitem item "attributes" = Ok (JDict attributes))
      by (rewrite Hitem; simpl; now rewrite Ha).
    assert (Hg' : Py.getitem (JDict attributes) "values" = Ok (JList (map JDict values)))
      by (simpl; now rewrite Hvs).
    rewrite Hg. cbn [bind]. rewrite Hg'. cbn [bind Py.iter].
    rewrite (values_entries_closed _ _ _ _ Hi Hv). reflexivity.
Qed.

Lemma extract_time_series_rows_witness :
  TimeSeries.extract_time_series
    (JDict [("included",
             JList [JDict [("type", JStr "Demanda real");
                           ("attributes",
                            JDict [("title", JStr "Demanda real");
                                   ("values",
                                    JList [JDict [("value", JNum 25000);
                                                  ("percentage", JNum 1);
                                                  ("datetime", JStr "2023-01-01T00:00:00")]])])]])])
    None
  = Ok [[("datetime", JStr "2023-01-01T00:00:00"); ("type", JStr "Demanda real");
         ("value", JNum 25000); ("percentage", JNum 1)]].
Proof.
  apply (extract_time_series_rows _
           [(JDict [("type", JStr "Demanda real");
                    ("attributes",
                     JDict [("title", JStr "Demanda real");
                            ("values",
                             JList [JDict [("value", JNum 25000);
                                           ("percentage", JNum 1);
                                           ("datetime", JStr "2023-01-01T00:00:00")]])])],
             (JStr "Demanda real",
              [[("value", JNum 25000); ("percentage", JNum 1);
                ("datetime", JStr "2023-01-01T00:00:00")]]))]).
  - reflexivity.
  - repeat constructor.
    + do 2 eexists. repeat split; reflexivity.
    + cbn. intros [H|[H|[]]]; discriminate H.
    + cbn. intros [H|[]]; discriminate H.
    + cbn. intros [].
    + now exists (JStr "2023-01-01T00:00:00").
    + now exists (JNum 25000).
Defined.

Lemma lookup_filter_extra k fields :
  (forall x, TimeSeries.is_extra (k, x) = true) ->
  Py.lookup k (filter TimeSeries.is_extra fields) = Py.lookup k fields.
Proof.
  intros Hk. induction fields as [|[k' x] fields IH]; simpl; [reflexivity|].
  destruct (String.eqb k k') eqn:He.
  - apply String.eqb_eq in He. subst k'. rewrite (Hk x). simpl.
    now rewrite String.eqb_refl.
  - destruct (TimeSeries.is_extra (k', x)); simpl; [now rewrite He | exact IH].
Qed.

(** X10. Every field of a source value reaches its row unchanged: under
    each key of the value the row holds the value's content.  So a field
    named [type] of the value replaces the item's title in the [type]
    column, and only a value without such a field is labelled with the
    title. *)
Theorem value_fields_preserved item title values fields entry :
  TimeSeries.item_with item title values ->
  NoDup (map fst fields) ->
  TimeSeries.value_entry item (JDict fields) = Ok entry ->
  (forall k x, Py.lookup k fields = Some x -> Py.lookup k entry = Some x) /\
  (Py.lookup "type" fields = None -> Py.lookup "type" entry = Some title).
Proof.
  intros Hi Hnd He.
  assert (Hok : TimeSeries.value_ok fields).
  { unfold TimeSeries.value_entry in He.
    apply bind_ok in He. destruct He as (d & Hd & He).
    apply bind_ok in He. destruct He as (a & _ & He).
    apply bind_ok in He. destruct He as (t & _ & He).
    apply bind_ok in He. destruct He as (v & Hv & _).
    simpl in Hd, Hv. split; [assumption|]. split.
    - destruct (Py.lookup "datetime" fields); [eauto | discriminate].
    - destruct (Py.lookup "value" fields); [eauto | discriminate]. }
  rewrite (value_entry_closed _ _ _ _ Hi Hok) in He. injection He as <-.
  unfold TimeSeries.entry_of, field. split.
  - intros k x Hk.
    destruct (key_cases k) as [->|[->|[->|Hextra]]].
    + simpl. now rewrite Hk.
    + simpl. now rewrite Hk.
    + simpl. now rewrite Hk.
    + pose proof (Hextra x) as Hx. unfold TimeSeries.is_extra in Hx.
      cbn [fst existsb] in Hx.
      destruct (String.eqb k "datetime") eqn:Hdt; [discriminate|].
      destruct (String.eqb k "type") eqn:Hty; [discriminate|].
      destruct (String.eqb k "value") eqn:Hva; [discriminate|].
      cbn [app Py.lookup]. rewrite Hdt, Hty, Hva.
      now rewrite (lookup_filter_extra _ _ Hextra).
  - intros Hnone. simpl. now rewrite Hnone.
Qed.

Lemma value_fields_preserved_witness :
  Py.lookup "type"
    [("datetime", JStr "2023-01-01T00:00:00"); ("type", JStr "forecast");
     ("value", JNum 25000)] = Some (JStr "forecast").
Proof.
  apply (proj1 (value_fields_preserved
           (JDict [("attributes", JDict [("title", JStr "Demanda real");
                                         ("values", JList [])])])
           (JStr "Demanda real") []
           [("datetime", JStr "2023-01-01T00:00:00"); ("value", JNum 25000);
            ("type", JStr "forecast")]
           _
           (ex_intro _ _ (ex_intro _ _ (conj eq_refl (conj eq_refl (conj eq_refl eq_refl)))))
           ltac:(repeat constructor; cbn; intuition discriminate)
           eq_refl) "type" (JStr "forecast") eq_refl).
Defined.

Lemma items_entries_filter name included :
  name <> "" ->
  Forall TimeSeries.has_attributes included ->
  TimeSeries.items_entries (Some name) included =
  TimeSeries.items_entries None (filter (TimeSeries.titled name) included).
Proof.
  intros Hname. induction 1 as [|item rest (di & attributes & -> & Ha) _ IH].
  - reflexivity.
  - cbn [TimeSeries.items_entries filter]. rewrite IH.
    assert (Hskip : TimeSeries.skipped (Some name) (JDict di) =
                    Ok (negb (TimeSeries.titled name (JDict di)))).
    { unfold TimeSeries.skipped, TimeSeries.titled.
      destruct (String.eqb name "") eqn:He;
        [apply String.eqb_eq in He; contradiction|].
      simpl. rewrite Ha. reflexivity. }
    unfold TimeSeries.item_entries at 1. rewrite Hskip. cbn [bind].
    destruct (TimeSeries.titled name (JDict di)); cbn [negb].
    + reflexivity.
    + cbn [bind]. destruct (TimeSeries.items_entries None _); reflexivity.
Qed.

(** X11. Filtering by indicator is filtering the items by title: with a
    non-empty indicator name, [extract_time_series] returns what it returns
    without a filter on the payload that keeps only the items whose title
    is that name (the items' attributes being dictionaries), rows and
    exceptions alike. *)
Theorem extract_time_series_filter d included name :
  name <> "" ->
  Py.lookup "included" d = Some (JList included) ->
  Forall TimeSeries.has_attributes included ->
  TimeSeries.extract_time_series (JDict d) (Some name) =
  TimeSeries.extract_time_series
    (JDict [("included", JList (filter (TimeSeries.titled name) included))]) None.
Proof.
  intros Hname Hd Hall. unfold TimeSeries.extract_time_series.
  rewrite (lookup_some_truthy _ _ _ Hd). simpl. rewrite Hd. simpl.
  now apply items_entries_filter.
Qed.

Lemma extract_time_series_filter_witness :
  TimeSeries.extract_time_series
    (JDict [("included",
             JList [JDict [("attributes",
                            JDict [("title", JStr "Wind");
                                   ("values", JList [JDict [("datetime", JStr "2023-01-01T00:00:00");
                                                            ("value", JNum 200)]])])];
                    JDict [("attributes",
                            JDict [("title", JStr "Nuclear");
                                   ("values", JList [JDict [("datetime", JStr "2023-01-01T00:00:00");
                                                            ("value", JNum 400)]])])]])])
    (Some "Nuclear")
  = Ok [[("datetime", JStr "2023-01-01T00:00:00"); ("type", JStr "Nuclear");
         ("value", JNum 400)]].
Proof.
  rewrite (extract_time_series_filter
             [("included",
               JList [JDict [("attributes",
                              JDict [("title", JStr "Wind");
                                     ("values", JList [JDict [("datetime", JStr "2023-01-01T00:00:00");
                                                              ("value", JNum 200)]])])];
                      JDict [("attributes",
                              JDict [("title", JStr "Nuclear");
                                     ("values", JList [JDict [("datetime", JStr "2023-01-01T00:00:00");
                                                              ("value", JNum 400)]])])]])]
             [JDict [("attributes",
                      JDict [("title", JStr "Wind");
                             ("values", JList [JDict [("datetime", JStr "2023-01-01T00:00:00");
                                                      ("value", JNum 200)]])])];
              JDict [("attributes",
                      JDict [("title", JStr "Nuclear");
                             ("values", JList [JDict [("datetime", JStr "2023-01-01T00:00:00");
                                                      ("value", JNum 400)]])])]]
             "Nuclear").
  - reflexivity.
  - intros H. discriminate H.
  - reflexivity.
  - repeat constructor; do 2 eexists; split; reflexivity.
Defined.

(** ** The renewable share *)

Lemma percentage_by_totals df :
  Metrics.calculate_renewable_percentage df ==
  (if Qeq_bool (Metrics.total_where Metrics.every df) 0 then 0
   else Metrics.total_where Metrics.renewable df /
        Metrics.total_where Metrics.every df * 100).
Proof.
  unfold Metrics.calculate_renewable_percentage.
  destruct df as [|r df]; [reflexivity|].
  cbv beta iota zeta delta [Metrics.empty].
  destruct (Qeq_bool (Metrics.sum (map Metrics.value (r :: df))) 0) eqn:Hz.
  - apply Qeq_bool_iff in Hz. rewrite sum_total in Hz.
    apply Qeq_bool_iff in Hz. now rewrite Hz.
  - destruct (Qeq_bool (Metrics.total_where Metrics.every (r :: df)) 0) eqn:Hz'.
    + apply Qeq_bool_iff in Hz'. rewrite <- sum_total in Hz'.
      apply Qeq_bool_iff in Hz'. rewrite Hz' in Hz. discriminate.
    + apply Qmult_comp; [|reflexivity].
      apply Qdiv_comp; [|apply sum_total].
      rewrite sum_total_where. apply Qeq_eq_ext.
      apply total_where_ext, isin_renewable.
Qed.

Lemma total_where_nonneg p df :
  Frames.nonnegative df -> 0 <= Metrics.total_where p df.
Proof.
  induction 1 as [|r df Hr _ IH]; simpl; [apply Qle_refl|].
  destruct (p r); [|exact IH].
  rewrite <- (Qplus_0_l 0). now apply Qplus_le_compat.
Qed.

Lemma total_where_le_total p df :
  Frames.nonnegative df ->
  Metrics.total_where p df <= Metrics.total_where Metrics.every df.
Proof.
  induction 1 as [|r df Hr _ IH]; simpl; [apply Qle_refl|].
  destruct (p r).
  - apply Qplus_le_compat; [apply Qle_refl | exact IH].
  - rewrite <- (Qplus_0_l (Metrics.total_where p df)).
    now apply Qplus_le_compat.
Qed.

(** X12. In exact arithmetic (sums that do not wrap around and are not
    rounded), on a frame without negative values the renewable share is a
    percentage: it lies between 0 and 100. *)
Theorem renewable_percentage_range df :
  Frames.nonnegative df ->
  0 <= Metrics.calculate_renewable_percentage df /\
  Metrics.calculate_renewable_percentage df <= 100.
Proof.
  intros Hnn. rewrite percentage_by_totals.
  destruct (Qeq_bool (Metrics.total_where Metrics.every df) 0) eqn:Hz.
  - split; [apply Qle_refl | discriminate].
  - apply Qeq_bool_neq in Hz.
    pose proof (total_where_nonneg Metrics.every df Hnn) as Ht.
    pose proof (total_where_nonneg Metrics.renewable df Hnn) as Hr.
    pose proof (total_where_le_total Metrics.renewable df Hnn) as Hle.
    assert (Hpos : 0 < Metrics.total_where Metrics.every df).
    { apply Qle_lteq in Ht. destruct Ht as [Ht|Ht]; [exact Ht|].
      exfalso. apply Hz. now symmetry. }
    split.
    + apply Qmult_le_0_compat; [|discriminate].
      apply Qle_shift_div_l; [exact Hpos|]. now rewrite Qmult_0_l.
    + setoid_replace 100 with (1 * 100) at 2 by reflexivity.
      apply Qmult_le_compat_r; [|discriminate].
      apply Qle_shift_div_r; [exact Hpos|]. now rewrite Qmult_1_l.
Qed.

Lemma renewable_percentage_range_witness :
  0 <= Metrics.calculate_renewable_percentage Metrics.mix_frame /\
  Metrics.calculate_renewable_percentage Metrics.mix_frame <= 100.
Proof.
  apply (renewable_percentage_range Metrics.mix_frame).
  repeat constructor; discriminate.
Defined.

Lemma total_where_permutation p df df' :
  Permutation df df' ->
  Metrics.total_where p df == Metrics.total_where p df'.
Proof.
  induction 1 as [|r df df' _ IH|r r' df|df df' df'' _ IH1 _ IH2]; simpl.
  - reflexivity.
  - destruct (p r); [now rewrite IH | exact IH].
  - destruct (p r), (p r'); try reflexivity. ring.
  - now rewrite IH1.
Qed.

Lemma Qeq_bool_compat a b : a == b -> Qeq_bool a 0 = Qeq_bool b 0.
Proof.
  intros H. destruct (Qeq_bool b 0) eqn:Hb.
  - apply Qeq_bool_iff. apply Qeq_bool_iff in Hb. now rewrite H.
  - destruct (Qeq_bool a 0) eqn:Ha; [|reflexivity].
    apply Qeq_bool_iff in Ha. rewrite H in Ha.
    apply Qeq_bool_iff in Ha. rewrite Ha in Hb. discriminate.
Qed.

(** X13. The renewable share does not depend on the order of the
    records. *)
Theorem renewable_percentage_permutation df df' :
  Permutation df df' ->
  Metrics.calculate_renewable_percentage df ==
  Metrics.calculate_renewable_percentage df'.
Proof.
  intros Hp. rewrite !percentage_by_totals.
  pose proof (total_where_permutation Metrics.every _ _ Hp) as Ht.
  pose proof (total_where_permutation Metrics.renewable _ _ Hp) as Hr.
  rewrite (Qeq_bool_compat _ _ Ht).
  destruct (Qeq_bool (Metrics.total_where Metrics.every df') 0); [reflexivity|].
  now rewrite Ht, Hr.
Qed.

Lemma renewable_percentage_permutation_witness :
  Metrics.calculate_renewable_percentage
    [Metrics.mkRow Metrics.at_noon "Coal" 300; Metrics.mkRow Metrics.at_noon "Wind" 200] ==
  Metrics.calculate_renewable_percentage
    [Metrics.mkRow Metrics.at_noon "Wind" 200; Metrics.mkRow Metrics.at_noon "Coal" 300].
Proof.
  apply (renewable_percentage_permutation
           [Metrics.mkRow Metrics.at_noon "Coal" 300; Metrics.mkRow Metrics.at_noon "Wind" 200]
           [Metrics.mkRow Metrics.at_noon "Wind" 200; Metrics.mkRow Metrics.at_noon "Coal" 300]).
  apply perm_swap.
Defined.

Lemma total_where_forall p q df :
  Forall (fun r => p r = q r) df ->
  Metrics.total_where p df = Metrics.total_where q df.
Proof.
  induction 1 as [|r df Hr _ IH]; simpl; [reflexivity|]. now rewrite Hr, IH.
Qed.

Lemma total_where_none p df :
  Forall (fun r => p r = false) df -> Metrics.total_where p df = 0.
Proof.
  induction 1 as [|r df Hr _ IH]; simpl; [reflexivity|]. now rewrite Hr.
Qed.

(** X14. The two ends of the scale, in exact arithmetic (sums that do not
    wrap around and are not rounded): a frame whose records are all of
    renewable types, with a non-zero total, has share 100; a frame with no
    record of a renewable type has share 0. *)
Theorem renewable_percentage_extremes df :
  (Forall (fun r => In (Metrics.type r) Metrics.renewable_types) df ->
   ~ Metrics.total_where Metrics.every df == 0 ->
   Metrics.calculate_renewable_percentage df == 100) /\
  (Forall (fun r => ~ In (Metrics.type r) Metrics.renewable_types) df ->
   Metrics.calculate_renewable_percentage df == 0).
Proof.
  split.
  - intros Hall Hnz. rewrite percentage_by_totals.
    destruct (Qeq_bool (Metrics.total_where Metrics.every df) 0) eqn:Hz;
      [apply Qeq_bool_iff in Hz; contradiction|].
    rewrite (total_where_forall Metrics.renewable Metrics.every).
    + field. exact Hnz.
    + eapply Forall_impl; [|exact Hall]. intros r Hr.
      unfold Metrics.renewable, Metrics.every.
      destruct (in_dec string_dec (Metrics.type r) Metrics.renewable_types);
        [reflexivity | contradiction].
  - intros Hnone. rewrite percentage_by_totals.
    destruct (Qeq_bool (Metrics.total_where Metrics.every df) 0); [reflexivity|].
    rewrite (total_where_none Metrics.renewable).
    + unfold Qdiv. now rewrite !Qmult_0_l.
    + eapply Forall_impl; [|exact Hnone]. intros r Hr.
      unfold Metrics.renewable.
      destruct (in_dec string_dec (Metrics.type r) Metrics.renewable_types);
        [contradiction | reflexivity].
Qed.

Lemma renewable_percentage_extremes_witness :
  Metrics.calculate_renewable_percentage
    [Metrics.mkRow Metrics.at_noon "Wind" 200; Metrics.mkRow Metrics.at_noon "Hydro" 50] == 100 /\
  Metrics.calculate_renewable_percentage
    [Metrics.mkRow Metrics.at_noon "Nuclear" 400; Metrics.mkRow Metrics.at_noon "wind" 50] == 0.
Proof.
  split.
  - apply (proj1 (renewable_percentage_extremes
                    [Metrics.mkRow Metrics.at_noon "Wind" 200;
                     Metrics.mkRow Metrics.at_noon "Hydro" 50])).
    + constructor; [cbn; auto 10|]. constructor; [cbn; auto 10|]. constructor.
    + intros H. discriminate H.
  - apply (proj2 (renewable_percentage_extremes
                    [Metrics.mkRow Metrics.at_noon "Nuclear" 400;
                     Metrics.mkRow Metrics.at_noon "wind" 50])).
    constructor; [cbn; intuition discriminate|].
    constructor; [cbn; intuition discriminate|]. constructor.
Defined.

(** ** Aggregation by type *)

Lemma sum_cons x xs : Metrics.sum (x :: xs) == x + Metrics.sum xs.
Proof.
  unfold Metrics.sum. rewrite !fold_left_Qplus. simpl. ring.
Qed.

Lemma sum_nil : Metrics.sum [] == 0.
Proof. reflexivity. Qed.

Lemma sum_snoc xs v : Metrics.sum (xs ++ [v]) == Metrics.sum xs + v.
Proof.
  induction xs as [|x xs IH]; simpl.
  - rewrite sum_cons, sum_nil. ring.
  - rewrite !sum_cons, IH. ring.
Qed.

Lemma group_insert_total {K} (cmp : K -> K -> comparison) k v groups :
  Metrics.sum (map snd (Metrics.agg Metrics.sum (Metrics.group_insert cmp k v groups))) ==
  Metrics.sum (map snd (Metrics.agg Metrics.sum groups)) + v.
Proof.
  induction groups as [|[k' vs] rest IH]; simpl.
  - rewrite !sum_cons, !sum_nil. ring.
  - destruct (cmp k k'); simpl.
    + rewrite !sum_cons, sum_snoc. ring.
    + rewrite !sum_cons, sum_nil. ring.
    + rewrite !sum_cons. unfold Metrics.agg in *. rewrite IH. ring.
Qed.

Lemma groupby_from_total {K} (cmp : K -> K -> comparison) rows : forall groups,
  Metrics.sum (map snd (Metrics.agg Metrics.sum
    (fold_left (fun g kv => Metrics.group_insert cmp (fst kv) (snd kv) g) rows groups))) ==
  Metrics.sum (map snd (Metrics.agg Metrics.sum groups)) + Metrics.sum (map snd rows).
Proof.
  induction rows as [|[k v] rows IH]; intros groups; simpl.
  - rewrite sum_nil. ring.
  - rewrite IH, group_insert_total, sum_cons. ring.
Qed.

(** X15. Aggregation conserves the total: the sums of the categories add
    up to the sum of the [value] column of the frame. *)
Theorem aggregate_by_type_conserves_total df :
  Metrics.sum (map snd (Metrics.aggregate_by_type df)) ==
  Metrics.sum (map Metrics.value df).
Proof.
  rewrite aggregate_by_type_groupby. unfold Metrics.groupby.
  rewrite groupby_from_total, map_map. simpl.
  rewrite sum_nil, Qplus_0_l. reflexivity.
Qed.

Lemma aggregate_by_type_facts df :
  StronglySorted (Metrics.keys_lt String.compare) (Metrics.aggregate_by_type df) /\
  (forall c, In c (map fst (Metrics.aggregate_by_type df)) <->
             In c (map Metrics.type df)) /\
  (forall c s, In (c, s) (Metrics.aggregate_by_type df) ->
               s == Metrics.total_where (Metrics.of_category c) df).
Proof.
  rewrite aggregate_by_type_groupby.
  destruct (groupby_facts String.compare string_compare_eq
              String.compare_antisym string_compare_trans
              (map (fun r => (Metrics.type r, Metrics.value r)) df))
    as (Hs & Hv & Hk).
  split; [exact (agg_sorted String.compare Metrics.sum _ Hs)|]. split.
  - intros c. rewrite agg_keys, Hk, map_map. reflexivity.
  - intros c s Hin. apply agg_in in Hin. destruct Hin as (vs & Hin & ->).
    rewrite (Hv _ _ Hin), rows_of_category. apply sum_total_where.
Qed.

Lemma sorted_same_keys {V W} (l1 : list (string * V)) : forall (l2 : list (string * W)),
  StronglySorted (Metrics.keys_lt String.compare) l1 ->
  StronglySorted (Metrics.keys_lt String.compare) l2 ->
  (forall k, In k (map fst l1) <-> In k (map fst l2)) ->
  map fst l1 = map fst l2.
Proof.
  induction l1 as [|x l1 IH]; intros [|y l2] H1 H2 Hk.
  - reflexivity.
  - exfalso. apply (proj2 (Hk (fst y))). now left.
  - exfalso. apply (proj1 (Hk (fst x))). now left.
  - inversion H1 as [|? ? Hs1 Ha1]; inversion H2 as [|? ? Hs2 Ha2]; subst.
    rewrite Forall_forall in Ha1, Ha2.
    assert (Hlt1 : forall k, In k (map fst l1) -> String.compare (fst x) k = Lt).
    { intros k Hin. apply in_map_iff in Hin. destruct Hin as (z & <- & Hz).
      exact (Ha1 z Hz). }
    assert (Hlt2 : forall k, In k (map fst l2) -> String.compare (fst y) k = Lt).
    { intros k Hin. apply in_map_iff in Hin. destruct Hin as (z & <- & Hz).
      exact (Ha2 z Hz). }
    assert (Hxy : fst x = fst y).
    { destruct (proj1 (Hk (fst x)) (or_introl eq_refl)) as [Hy|Hy]; [now symmetry|].
      destruct (proj2 (Hk (fst y)) (or_introl eq_refl)) as [Hx|Hx]; [assumption|].
      exfalso. apply (string_compare_irrefl (fst x)).
      exact (string_compare_trans _ _ _ (Hlt1 _ Hx) (Hlt2 _ Hy)). }
    simpl. rewrite Hxy. f_equal. apply IH; try assumption.
    intros k. split; intros Hin.
    + destruct (proj1 (Hk k) (or_intror Hin)) as [Hy|Hy]; [|assumption].
      exfalso. apply (string_compare_irrefl k).
      rewrite <- Hy, <- Hxy at 1. now apply Hlt1.
    + destruct (proj2 (Hk k) (or_intror Hin)) as [Hx|Hx]; [|assumption].
      exfalso. apply (string_compare_irrefl k).
      rewrite <- Hx, Hxy at 1. now apply Hlt2.
Qed.

Lemma same_aggregate_of_keys (l1 : list (string * Q)) : forall l2,
  map fst l1 = map fst l2 ->
  (forall c s s', In (c, s) l1 -> In (c, s') l2 -> s == s') ->
  Frames.same_aggregate l1 l2.
Proof.
  unfold Frames.same_aggregate.
  induction l1 as [|[c s] l1 IH]; intros [|[c' s'] l2] Hk Hs;
    try discriminate; [constructor|].
  simpl in Hk. injection Hk as <- Hk.
  constructor.
  - split; [reflexivity|]. apply (Hs c); now left.
  - apply IH; [assumption|]. intros k a b Ha Hb. apply (Hs k); now right.
Qed.

(** X16. In exact arithmetic, aggregation does not depend on the order of
    the records: two frames with the same records in another order give
    the same list of categories, in the same (ascending) order, with equal
    sums.  (The sums of a [float64] column are rounded at each addition
    and may differ with the order.) *)
Theorem aggregate_by_type_permutation df df' :
  Permutation df df' ->
  Frames.same_aggregate (Metrics.aggregate_by_type df) (Metrics.aggregate_by_type df').
Proof.
  intros Hp.
  destruct (aggregate_by_type_facts df) as (Hs & Hk & Hv).
  destruct (aggregate_by_type_facts df') as (Hs' & Hk' & Hv').
  apply same_aggregate_of_keys.
  - apply sorted_same_keys; try assumption.
    intros k. rewrite Hk, Hk'. split; apply Permutation_in.
    + now apply Permutation_map.
    + apply Permutation_sym. now apply Permutation_map.
  - intros c s s' Hin Hin'.
    rewrite (Hv _ _ Hin), (Hv' _ _ Hin').
    now apply total_where_permutation.
Qed.

Lemma aggregate_by_type_permutation_witness :
  Frames.same_aggregate
    (Metrics.aggregate_by_type
       [Metrics.mkRow Metrics.at_noon "Wind" 100; Metrics.mkRow Metrics.at_noon "Coal" 300;
        Metrics.mkRow Metrics.at_noon "Wind" 150])
    (Metrics.aggregate_by_type
       [Metrics.mkRow Metrics.at_noon "Coal" 300; Metrics.mkRow Metrics.at_noon "Wind" 100;
        Metrics.mkRow Metrics.at_noon "Wind" 150]).
Proof.
  apply (aggregate_by_type_permutation
           [Metrics.mkRow Metrics.at_noon "Wind" 100; Metrics.mkRow Metrics.at_noon "Coal" 300;
            Metrics.mkRow Metrics.at_noon "Wind" 150]
           [Metrics.mkRow Metrics.at_noon "Coal" 300; Metrics.mkRow Metrics.at_noon "Wind" 100;
            Metrics.mkRow Metrics.at_noon "Wind" 150]).
  apply perm_swap.
Defined.

(** ** Daily averages *)








Section DailyAverageFacts.

Variable to_datetime : string -> option Metrics.Timestamp.




End DailyAverageFacts.


Section DailyAverageBuckets.

Variable to_datetime : string -> option Metrics.Timestamp.







End DailyAverageBuckets.


(** ** Masking of the API token *)

Section MaskFacts.

Variable C : Type.
Variables dot star : C.

Lemma slices_of_token (a m b : list C) :
  List.length a = 4%nat -> List.length b = 4%nat ->
  Token.slice_to C 4 (a ++ m ++ b) = a /\
  Token.slice_last C 4 (a ++ m ++ b) = b /\
  List.length (a ++ m ++ b)%list = (8 + List.length m)%nat.
Proof.
  intros Ha Hb. unfold Token.slice_to, Token.slice_last. repeat split.
  - rewrite <- Ha. rewrite firstn_app, Nat.sub_diag, firstn_all. simpl.
    now rewrite app_nil_r.
  - rewrite app_assoc.
    replace (List.length ((a ++ m) ++ b) - 4)%nat with (List.length (a ++ m))
      by (rewrite (length_app (a ++ m)); lia).
    now rewrite skipn_app, skipn_all, Nat.sub_diag.
  - rewrite !length_app. lia.
Qed.

(** X20. The initialisation message of the client never shows more of a
    token than its first four and last four characters: for a token of
    more than eight characters the text shown is these two ends around
    three dots, whatever lies between them and however long it is; a token
    of eight characters or fewer, or none, is not shown at all. *)
Theorem masked_token_hides_middle :
  (forall a m b,
      List.length a = 4%nat -> List.length b = 4%nat -> m <> [] ->
      Token.masked_token C dot (Some (a ++ m ++ b)%list) =
      Some (a ++ [dot; dot; dot] ++ b)%list) /\
  (forall token,
      (List.length token <= 8)%nat ->
      Token.masked_token C dot (Some token) = None) /\
  Token.masked_token C dot None = None.
Proof.
  split; [|split; [|reflexivity]].
  - intros a m b Ha Hb Hm.
    destruct (slices_of_token a m b Ha Hb) as (H1 & H2 & H3).
    assert (Hne : Metrics.empty (a ++ m ++ b)%list = false)
      by (destruct a; [discriminate Ha | reflexivity]).
    assert (Hlt : (8 <? List.length (a ++ m ++ b)%list)%nat = true)
      by (apply Nat.ltb_lt; rewrite H3; destruct m; [contradiction | simpl; lia]).
    unfold Token.masked_token. rewrite H1, H2, Hne, Hlt. reflexivity.
  - intros token Hlen. unfold Token.masked_token.
    destruct (8 <? List.length token)%nat eqn:Hlt.
    + apply Nat.ltb_lt in Hlt. lia.
    + now rewrite andb_false_r.
Qed.


End MaskFacts.

Lemma masked_token_hides_middle_witness :
  Token.masked_token ascii "."%char
    (Some (list_ascii_of_string "abcd" ++ list_ascii_of_string "0123456789"
             ++ list_ascii_of_string "wxyz")%list)
  = Some (list_ascii_of_string "abcd...wxyz").
Proof.
  apply (proj1 (masked_token_hides_middle ascii "."%char)
           (list_ascii_of_string "abcd") (list_ascii_of_string "0123456789")
           (list_ascii_of_string "wxyz") eq_refl eq_refl).
  intros H. discriminate H.
Defined.


(** ** [get_logger] *)

Lemma get_logger_other name level reg n :
  Logging.key n <> Logging.key name ->
  Logging.get_logger name level reg n = reg n.
Proof.
  intros Hn. unfold Logging.get_logger.
  destruct (Metrics.empty (Logging.handlers (reg name))); [|reflexivity].
  unfold Logging.update.
  destruct (String.eqb (Logging.key n) (Logging.key name)) eqn:He; [|reflexivity].
  apply String.eqb_eq in He. contradiction.
Qed.

Lemma get_logger_same name level reg n :
  Logging.key n = Logging.key name ->
  Logging.handlers (reg name) = [] ->
  Logging.get_logger name level reg n =
  Logging.mkLogger (match level with None => Logging.INFO | Some l => l end)
    [Logging.mkHandler (match level with None => Logging.INFO | Some l => l end)
       Logging.format].
Proof.
  intros Hk Hh. unfold Logging.get_logger. rewrite Hh. simpl.
  unfold Logging.update. now rewrite Hk, String.eqb_refl.
Qed.

Lemma get_logger_handlers name level reg n :
  (List.length (Logging.handlers (reg n)) <= 1)%nat ->
  (List.length (Logging.handlers (Logging.get_logger name level reg n)) <= 1)%nat.
Proof.
  intros H. unfold Logging.get_logger.
  destruct (Logging.handlers (reg name)) eqn:Hh; simpl; [|exact H].
  unfold Logging.update.
  destruct (String.eqb (Logging.key n) (Logging.key name)); [simpl; lia | exact H].
Qed.

(** A registry gives the same logger for the names of one key; every
    registry reached from [fresh] does. *)
Lemma get_logger_aliases name level reg :
  (forall n n', Logging.key n = Logging.key n' -> reg n = reg n') ->
  forall n n', Logging.key n = Logging.key n' ->
               Logging.get_logger name level reg n =
               Logging.get_logger name level reg n'.
Proof.
  intros Hreg n n' Hk. unfold Logging.get_logger.
  destruct (Metrics.empty (Logging.handlers (reg name))); [|now apply Hreg].
  unfold Logging.update. rewrite Hk.
  destruct (String.eqb (Logging.key n') (Logging.key name)); [reflexivity|].
  now apply Hreg.
Qed.

Lemma calls_aliases cs : forall reg,
  (forall n n', Logging.key n = Logging.key n' -> reg n = reg n') ->
  forall n n', Logging.key n = Logging.key n' ->
               Logging.calls cs reg n = Logging.calls cs reg n'.
Proof.
  unfold Logging.calls.
  induction cs as [|[name level] cs IH]; intros reg Hreg n n' Hk; simpl.
  - now apply Hreg.
  - apply IH; [|exact Hk]. now apply get_logger_aliases.
Qed.

Lemma fresh_aliases n n' :
  Logging.key n = Logging.key n' -> Logging.fresh n = Logging.fresh n'.
Proof. intros Hk. unfold Logging.fresh. now rewrite Hk. Qed.

Lemma calls_other cs : forall reg n,
  ~ In (Logging.key n) (map (fun c => Logging.key (fst c)) cs) ->
  Logging.calls cs reg n = reg n.
Proof.
  unfold Logging.calls.
  induction cs as [|[name level] cs IH]; intros reg n Hn; simpl; [reflexivity|].
  rewrite IH by (intros H; apply Hn; now right).
  apply get_logger_other. intros He. apply Hn. left. simpl. now rewrite He.
Qed.

Lemma get_logger_configured name level reg n :
  (forall m m', Logging.key m = Logging.key m' -> reg m = reg m') ->
  Logging.handlers (reg n) <> [] -> Logging.get_logger name level reg n = reg n.
Proof.
  intros Hreg Hh.
  destruct (string_dec (Logging.key n) (Logging.key name)) as [He|Hn].
  - unfold Logging.get_logger. rewrite <- (Hreg n name He).
    destruct (Logging.handlers (reg n)); [contradiction | reflexivity].
  - now apply get_logger_other.
Qed.

Lemma calls_configured cs : forall reg n,
  (forall m m', Logging.key m = Logging.key m' -> reg m = reg m') ->
  Logging.handlers (reg n) <> [] -> Logging.calls cs reg n = reg n.
Proof.
  unfold Logging.calls.
  induction cs as [|[name level] cs IH]; intros reg n Hreg Hh; simpl; [reflexivity|].
  rewrite IH.
  - now apply get_logger_configured.
  - now apply get_logger_aliases.
  - now rewrite get_logger_configured.
Qed.

(** X22. However often and with whatever levels [get_logger] is called,
    starting from unconfigured loggers, no logger ever has more than one
    handler; and a repeated call for a name leaves everything as the first
    call left it. *)
Theorem get_logger_single_handler :
  (forall cs name,
      (List.length (Logging.handlers (Logging.calls cs Logging.fresh name)) <= 1)%nat) /\
  (forall reg name level level' n,
      Logging.get_logger name level' (Logging.get_logger name level reg) n =
      Logging.get_logger name level reg n).
Proof.
  split.
  - intros cs name.
    assert (H : forall reg,
               (forall n, (List.length (Logging.handlers (reg n)) <= 1)%nat) ->
               forall n, (List.length (Logging.handlers (Logging.calls cs reg n)) <= 1)%nat).
    { unfold Logging.calls.
      induction cs as [|[nm lv] cs IH]; intros reg Hreg n; simpl; [apply Hreg|].
      apply IH. intros n'. now apply get_logger_handlers. }
    apply H. intros n. simpl. lia.
  - intros reg name level level' n.
    unfold Logging.get_logger at 1.
    destruct (Metrics.empty
                (Logging.handlers (Logging.get_logger name level reg name))) eqn:He;
      [|reflexivity].
    exfalso. revert He. unfold Logging.get_logger.
    destruct (Logging.handlers (reg name)) eqn:Hh; simpl.
    + unfold Logging.update. rewrite String.eqb_refl. discriminate.
    + rewrite Hh. discriminate.
Qed.

(** X23. The first call for a logger decides its configuration: after any
    later calls, for this logger or others, it still has the level of that
    first call ([INFO] where none was given) and the single handler
    created then; a level passed later is ignored.  The empty name and
    [root] are two names of one logger, the root logger: a call under one
    of them configures it for the other too. *)
Theorem get_logger_first_call_wins pre name level post n :
  ~ In (Logging.key name) (map (fun c => Logging.key (fst c)) pre) ->
  Logging.key n = Logging.key name ->
  Logging.calls (pre ++ (name, level) :: post) Logging.fresh n =
  let l := match level with None => Logging.INFO | Some l => l end in
  Logging.mkLogger l [Logging.mkHandler l Logging.format].
Proof.
  intros Hpre Hk. unfold Logging.calls. rewrite fold_left_app. simpl.
  fold (Logging.calls pre Logging.fresh).
  fold (Logging.calls post
          (Logging.get_logger name level (Logging.calls pre Logging.fresh))).
  assert (Hcfg : Logging.get_logger name level (Logging.calls pre Logging.fresh) n =
                 Logging.mkLogger
                   (match level with None => Logging.INFO | Some l => l end)
                   [Logging.mkHandler
                      (match level with None => Logging.INFO | Some l => l end)
                      Logging.format]).
  { apply get_logger_same; [exact Hk|].
    now rewrite (calls_other pre _ _ Hpre). }
  rewrite calls_configured; [exact Hcfg | | rewrite Hcfg; discriminate].
  apply get_logger_aliases. intros m m' Hm.
  apply calls_aliases; [exact fresh_aliases | exact Hm].
Qed.

Lemma get_logger_first_call_wins_witness :
  Logging.calls [("reepi.app", None); ("root", Some 10%Z); ("", Some 40%Z)]
    Logging.fresh ""
  = Logging.mkLogger 10 [Logging.mkHandler 10 Logging.format].
Proof.
  apply (get_logger_first_call_wins [("reepi.app", None)] "root"
           (Some 10%Z) [("", Some 40%Z)] "").
  - cbn. intros [H|[]]. discriminate H.
  - reflexivity.
Defined.

(** ** [load_data] *)

Section LoadDataFacts.

Variables get_generation_mix get_electricity_prices get_demand_data
          get_co2_emissions : string -> string -> string -> exc json.
Variable call_attribute : string -> json -> exc DataFrame.
Variable to_datetime_column : DataFrame -> exc DataFrame.

(** X24. [load_data] never delivers generation or price data: it calls
    [parse_generation_data] and [parse_price_data] on the client, which
    [REEClient] does not define, so whatever the requests return, the
    result for "Generation Mix" and for "Electricity Prices" is the empty
    frame and the result for "Dashboard" is the empty dictionary. *)
Theorem load_data_missing_parsers start_date end_date time_trunc :
  App.load_data get_generation_mix get_electricity_prices get_demand_data
    get_co2_emissions call_attribute to_datetime_column
    "Generation Mix" start_date end_date time_trunc = App.Frame empty_frame /\
  App.load_data get_generation_mix get_electricity_prices get_demand_data
    get_co2_emissions call_attribute to_datetime_column
    "Electricity Prices" start_date end_date time_trunc = App.Frame empty_frame /\
  App.load_data get_generation_mix get_electricity_prices get_demand_data
    get_co2_emissions call_attribute to_datetime_column
    "Dashboard" start_date end_date time_trunc = App.Frames [].
Proof.
  unfold App.load_data, App.load. simpl. repeat split.
  - destruct (get_generation_mix start_date end_date time_trunc); reflexivity.
  - destruct (get_electricity_prices start_date end_date time_trunc); reflexivity.
  - destruct (get_generation_mix start_date end_date time_trunc); reflexivity.
Qed.

(** X25. For "Demand" and "CO2 Emissions", a response that is a dictionary
    without an ["included"] entry (the shape of the indicator responses the
    client is tested with) gives the empty frame: nothing is extracted and
    no column is converted. *)
Theorem load_data_without_included start_date end_date time_trunc d :
  Py.lookup "included" d = None ->
  (get_demand_data start_date end_date time_trunc = Ok (JDict d) ->
   App.load_data get_generation_mix get_electricity_prices get_demand_data
    get_co2_emissions call_attribute to_datetime_column
    "Demand" start_date end_date time_trunc = App.Frame empty_frame) /\
  (get_co2_emissions start_date end_date time_trunc = Ok (JDict d) ->
   App.load_data get_generation_mix get_electricity_prices get_demand_data
    get_co2_emissions call_attribute to_datetime_column
    "CO2 Emissions" start_date end_date time_trunc = App.Frame empty_frame).
Proof.
  intros Hd.
  assert (He : TimeSeries.extract_time_series (JDict d) None = Ok empty_frame).
  { unfold TimeSeries.extract_time_series.
    destruct (negb (Py.truthy (JDict d))); [reflexivity|].
    simpl. now rewrite Hd. }
  unfold App.load_data, App.load. simpl.
  split; intros ->; simpl; rewrite He; reflexivity.
Qed.

End LoadDataFacts.

Lemma load_data_without_included_witness :
  App.load_data
    (fun _ _ _ => Raise ValueError) (fun _ _ _ => Raise ValueError)
    (fun _ _ _ => Ok (response [JDict [("datetime", JStr "2023-01-01T00:00:00");
                                       ("value", JNum 25000)]]))
    (fun _ _ _ => Raise ValueError)
    (fun _ _ => Raise TypeError) (fun df => Ok df)
    "Demand" "2023-01-01" "2023-01-02" "hour"
  = App.Frame empty_frame.
Proof.
  apply (proj1 (load_data_without_included
                  (fun _ _ _ => Raise ValueError) (fun _ _ _ => Raise ValueError)
                  (fun _ _ _ => Ok (response [JDict [("datetime", JStr "2023-01-01T00:00:00");
                                                     ("value", JNum 25000)]]))
                  (fun _ _ _ => Raise ValueError)
                  (fun _ _ => Raise TypeError) (fun df => Ok df)
                  "2023-01-01" "2023-01-02" "hour"
                  [("indicator",
                    JDict [("values",
                            JList [JDict [("datetime", JStr "2023-01-01T00:00:00");
                                          ("value", JNum 25000)]])])]
                  eq_refl)).
  reflexivity.
Defined.

(** * The metrics on the column as pandas holds it *)

(** ** Sums of an [int64] column *)

Lemma wrap64_add_l a b :
  Numeric.wrap64 (Numeric.wrap64 a + b) = Numeric.wrap64 (a + b).
Proof.
  unfold Numeric.wrap64. f_equal.
  replace ((a + 2 ^ 63) mod 2 ^ 64 - 2 ^ 63 + b + 2 ^ 63)%Z
    with ((a + 2 ^ 63) mod 2 ^ 64 + b)%Z by ring.
  rewrite Zplus_mod_idemp_l. f_equal. ring.
Qed.

Lemma wrap64_in_range z : Numeric.in_int64 z -> Numeric.wrap64 z = z.
Proof.
  unfold Numeric.in_int64, Numeric.wrap64. intros H.
  rewrite Z.mod_small; lia.
Qed.

Lemma sum_int64_from xs : forall a,
  fold_left (fun acc x => Numeric.wrap64 (acc + x)) xs (Numeric.wrap64 a) =
  Numeric.wrap64 (a + Numeric.exact_sum xs).
Proof.
  induction xs as [|x xs IH]; intros a; simpl.
  - now rewrite Z.add_0_r.
  - rewrite wrap64_add_l, IH. f_equal. ring.
Qed.

Lemma sum_int64_wrap xs :
  Numeric.sum_int64 xs = Numeric.wrap64 (Numeric.exact_sum xs).
Proof. exact (sum_int64_from xs 0%Z). Qed.

Lemma isin_in_dec t :
  Metrics.isin Metrics.renewable_types t =
  if in_dec string_dec t Metrics.renewable_types then true else false.
Proof.
  unfold Metrics.isin.
  destruct (in_dec string_dec t Metrics.renewable_types) as [Hin|Hnin].
  - apply existsb_exists. exists t. split; [assumption | apply String.eqb_refl].
  - destruct (existsb _ _) eqn:He; [|reflexivity].
    apply existsb_exists in He. destruct He as (x & Hx & Heq).
    apply String.eqb_eq in Heq. subst x. contradiction.
Qed.

Lemma renewable_values_filter {V} (df : list (Numeric.row V)) :
  map Numeric.value
      (filter (fun r => Metrics.isin Metrics.renewable_types (Numeric.type r)) df) =
  Numeric.renewable_values df.
Proof.
  unfold Numeric.renewable_values. f_equal. apply filter_ext.
  intros r. apply isin_in_dec.
Qed.

(** ** The renewable share *)

(** C5, as stated, fails where the total of an integer column leaves the
    [int64] range: on Wind [2^62], Coal [2^62] the quotient of the sums
    times 100 is 50, and the function returns -50.0, the total having
    wrapped around to [-2^63]. *)
Lemma renewable_percentage_wraps :
  (inject_Z (Numeric.exact_sum (Numeric.renewable_values Numeric.wrapping_frame)) /
   inject_Z (Numeric.exact_sum (map Numeric.value Numeric.wrapping_frame)) * 100
   == 50)%Q /\
  Numeric.calculate_renewable_percentage Numeric.int64 Numeric.wrapping_frame
  = (-50)%float.
Proof. split; reflexivity. Qed.

(** C5, amended.  On a frame that is not empty and whose total is not
    zero, the renewable share is the sum of [value] over the records of
    renewable types divided by the sum of [value] over all records, times
    100, in binary64, the sums being those of the column: on an integer
    column they wrap around at 64 bits, and they are the exact sums
    whenever these lie in the [int64] range; on the frame of the package's
    test the result is exactly 30.0. *)
Theorem renewable_percentage_of_column_sums :
  (forall (V : Type) (D : Numeric.Dtype V) (df : list (Numeric.row V)),
      df <> [] ->
      Numeric.is_zero D (Numeric.series_sum D (map Numeric.value df)) = false ->
      Numeric.calculate_renewable_percentage D df =
      PrimFloat.mul
        (PrimFloat.div
           (Numeric.to_float D (Numeric.series_sum D (Numeric.renewable_values df)))
           (Numeric.to_float D (Numeric.series_sum D (map Numeric.value df))))
        100%float) /\
  (forall df : list (Numeric.row Z),
      Numeric.in_int64 (Numeric.exact_sum (Numeric.renewable_values df)) ->
      Numeric.in_int64 (Numeric.exact_sum (map Numeric.value df)) ->
      Numeric.exact_sum (map Numeric.value df) <> 0%Z ->
      Numeric.calculate_renewable_percentage Numeric.int64 df =
      PrimFloat.mul
        (PrimFloat.div
           (Numeric.float_of_int64 (Numeric.exact_sum (Numeric.renewable_values df)))
           (Numeric.float_of_int64 (Numeric.exact_sum (map Numeric.value df))))
        100%float) /\
  Numeric.calculate_renewable_percentage Numeric.int64 Numeric.mix_frame = 30%float.
Proof.
  split; [|split; [|reflexivity]].
  - intros V D df Hne Hz. unfold Numeric.calculate_renewable_percentage.
    destruct df as [|r df]; [contradiction|].
    cbv beta iota zeta delta [Metrics.empty].
    rewrite Hz, renewable_values_filter. reflexivity.
  - intros df Hr Ht Hnz. unfold Numeric.calculate_renewable_percentage.
    destruct df as [|r df]; [exfalso; apply Hnz; reflexivity|].
    cbv beta iota zeta delta [Metrics.empty].
    rewrite renewable_values_filter.
    cbn [Numeric.series_sum Numeric.is_zero Numeric.to_float Numeric.int64].
    rewrite !sum_int64_wrap, (wrap64_in_range _ Hr), (wrap64_in_range _ Ht).
    destruct (Z.eqb_spec (Numeric.exact_sum (map Numeric.value (r :: df))) 0);
      [contradiction | reflexivity].
Qed.

Lemma renewable_percentage_of_column_sums_witness :
  Numeric.calculate_renewable_percentage Numeric.int64 Numeric.mix_frame =
  PrimFloat.mul (PrimFloat.div (Numeric.float_of_int64 300) (Numeric.float_of_int64 1000))
                100%float.
Proof.
  apply (proj1 (proj2 renewable_percentage_of_column_sums) Numeric.mix_frame).
  - unfold Numeric.in_int64. simpl. lia.
  - unfold Numeric.in_int64. simpl. lia.
  - simpl. lia.
Defined.

(** C6, as stated, fails on a float column: the values [1e16], [1.0],
    [-1e16], [-1.0] add up to exactly zero, but the column sum, rounded at
    each addition, is [-1.0]; the guard does not fire and the function
    returns -1e18. *)
Lemma renewable_percentage_rounded_total :
  Numeric.exact_sum Numeric.cancelling_values = 0%Z /\
  map Numeric.value Numeric.cancelling_frame =
  map Numeric.float_of_int64 Numeric.cancelling_values /\
  (forall long_sum grouped_sum,
      Numeric.series_sum (Numeric.float64 long_sum grouped_sum)
        (map Numeric.value Numeric.cancelling_frame) = (-1)%float /\
      Numeric.calculate_renewable_percentage (Numeric.float64 long_sum grouped_sum)
        Numeric.cancelling_frame = (-1e18)%float).
Proof. repeat split. Qed.

(** C6, amended.  The renewable share is exactly 0.0 on the empty frame
    and on every frame whose total, as the column computes it, is zero:
    the guards return before the division.  On an integer column this
    covers every frame whose exact total is zero, wrap-around or not. *)
Theorem renewable_percentage_zero_total :
  (forall (V : Type) (D : Numeric.Dtype V) (df : list (Numeric.row V)),
      df = [] \/
      Numeric.is_zero D (Numeric.series_sum D (map Numeric.value df)) = true ->
      Numeric.calculate_renewable_percentage D df = 0%float) /\
  (forall df : list (Numeric.row Z),
      Numeric.exact_sum (map Numeric.value df) = 0%Z ->
      Numeric.calculate_renewable_percentage Numeric.int64 df = 0%float).
Proof.
  split.
  - intros V D df [-> | Hz]; [reflexivity|].
    unfold Numeric.calculate_renewable_percentage.
    destruct (Metrics.empty df); [reflexivity|].
    cbv zeta. now rewrite Hz.
  - intros df Hz. unfold Numeric.calculate_renewable_percentage.
    destruct (Metrics.empty df); [reflexivity|].
    cbv zeta. cbn [Numeric.series_sum Numeric.is_zero Numeric.int64].
    now rewrite (sum_int64_wrap (map Numeric.value df)), Hz.
Qed.

Lemma renewable_percentage_zero_total_witness :
  Numeric.calculate_renewable_percentage Numeric.int64
    [Numeric.mkRow Metrics.at_noon "Wind" 5%Z;
     Numeric.mkRow Metrics.at_noon "Coal" (-5)%Z] = 0%float /\
  Numeric.calculate_renewable_percentage
    (Numeric.float64 (fun _ => 0%float) (fun _ => 0%float))
    [Numeric.mkRow Metrics.at_noon "Wind" 0%float;
     Numeric.mkRow Metrics.at_noon "Coal" 0%float] = 0%float.
Proof.
  split.
  - apply (proj2 renewable_percentage_zero_total
             [Numeric.mkRow Metrics.at_noon "Wind" 5%Z;
              Numeric.mkRow Metrics.at_noon "Coal" (-5)%Z]).
    reflexivity.
  - apply (proj1 renewable_percentage_zero_total float
             (Numeric.float64 (fun _ => 0%float) (fun _ => 0%float))
             [Numeric.mkRow Metrics.at_noon "Wind" 0%float;
              Numeric.mkRow Metrics.at_noon "Coal" 0%float]).
    right. reflexivity.
Defined.

(** ** Grouping on cells of any type *)

Section ColumnGroupByFacts.

Context {K V : Type} (cmp : K -> K -> comparison).
Hypothesis cmp_eq : forall a b, cmp a b = Eq <-> a = b.
Hypothesis cmp_antisym : forall a b, cmp a b = CompOpp (cmp b a).
Hypothesis cmp_trans : forall a b c, cmp a b = Lt -> cmp b c = Lt -> cmp a c = Lt.

Lemma column_insert_above (x : K * list V) k v groups :
  Metrics.keys_lt cmp x (k, [v]) ->
  Forall (Metrics.keys_lt cmp x) groups ->
  Forall (Metrics.keys_lt cmp x) (Numeric.group_insert cmp k v groups).
Proof.
  intros Hx. induction 1 as [|[k' vs] rest Hk' Hall IH]; simpl.
  - now constructor.
  - destruct (cmp k k').
    + constructor; [exact Hk' | assumption].
    + repeat constructor; assumption.
    + now constructor.
Qed.

Lemma column_insert_sorted k (v : V) groups :
  StronglySorted (Metrics.keys_lt cmp) groups ->
  StronglySorted (Metrics.keys_lt cmp) (Numeric.group_insert cmp k v groups).
Proof.
  induction 1 as [|[k' vs] rest Hs IH Hall]; simpl.
  - repeat constructor.
  - destruct (cmp k k') eqn:Hc.
    + constructor; [assumption|]. exact Hall.
    + constructor; [now constructor|].
      constructor; [exact Hc|].
      eapply Forall_impl; [|exact Hall].
      intros g Hg. unfold Metrics.keys_lt in *. simpl in *.
      now apply (cmp_trans _ k').
    + constructor; [assumption|].
      apply column_insert_above; [|assumption].
      unfold Metrics.keys_lt. simpl. rewrite cmp_antisym, Hc. reflexivity.
Qed.

Lemma column_values_below k (groups : list (K * list V)) :
  Forall (fun g => cmp k (fst g) = Lt) groups ->
  Numeric.group_values cmp k groups = [].
Proof.
  induction 1 as [|[k' vs] rest Hk _ IH]; simpl; [reflexivity|].
  simpl in Hk. now rewrite Hk.
Qed.

Lemma column_values_insert k k' (v : V) groups :
  StronglySorted (Metrics.keys_lt cmp) groups ->
  Numeric.group_values cmp k (Numeric.group_insert cmp k' v groups) =
  if Metrics.is_key cmp k k'
  then (Numeric.group_values cmp k groups ++ [v])%list
  else Numeric.group_values cmp k groups.
Proof.
  unfold Metrics.is_key.
  induction 1 as [|[h vs] rest Hs IH Hall]; simpl.
  - destruct (cmp k k'); reflexivity.
  - destruct (cmp k' h) eqn:Hc; simpl.
    + apply cmp_eq in Hc. subst h.
      destruct (cmp k k'); reflexivity.
    + destruct (cmp k k') eqn:Hk; try reflexivity.
      apply cmp_eq in Hk. subst k'. rewrite Hc.
      rewrite column_values_below; [reflexivity|].
      eapply Forall_impl; [|exact Hall].
      intros g Hg. unfold Metrics.keys_lt in Hg. simpl in Hg.
      now apply (cmp_trans _ h).
    + rewrite IH.
      destruct (cmp k k') eqn:Hk; try reflexivity.
      apply cmp_eq in Hk. subst k'. rewrite Hc. reflexivity.
Qed.

Lemma column_values_in k (vs : list V) groups :
  StronglySorted (Metrics.keys_lt cmp) groups ->
  In (k, vs) groups ->
  Numeric.group_values cmp k groups = vs.
Proof.
  induction 1 as [|[h ws] rest Hs IH Hall]; simpl; intros Hin.
  - contradiction.
  - destruct Hin as [Heq|Hin].
    + injection Heq as -> ->.
      now rewrite (proj2 (cmp_eq k k) eq_refl).
    + rewrite Forall_forall in Hall.
      specialize (Hall _ Hin). unfold Metrics.keys_lt in Hall.
      simpl in Hall. rewrite cmp_antisym, Hall. simpl. now apply IH.
Qed.

Lemma column_insert_keys k k' (v : V) groups :
  In k (map fst (Numeric.group_insert cmp k' v groups)) <->
  k = k' \/ In k (map fst groups).
Proof.
  induction groups as [|[h vs] rest IH]; simpl.
  - intuition.
  - destruct (cmp k' h) eqn:Hc; simpl.
    + apply cmp_eq in Hc. subst h. intuition.
    + intuition.
    + rewrite IH. intuition.
Qed.

Lemma column_groupby_from (rows : list (K * V)) : forall groups,
  StronglySorted (Metrics.keys_lt cmp) groups ->
  let result :=
    fold_left (fun g kv => Numeric.group_insert cmp (fst kv) (snd kv) g) rows groups in
  StronglySorted (Metrics.keys_lt cmp) result /\
  (forall k, Numeric.group_values cmp k result =
             (Numeric.group_values cmp k groups ++ Numeric.rows_of cmp k rows)%list) /\
  (forall k, In k (map fst result) <-> In k (map fst groups) \/ In k (map fst rows)).
Proof.
  induction rows as [|[k' v] rows IH]; intros groups Hs; simpl.
  - split; [assumption|]. split.
    + intros k. unfold Numeric.rows_of. simpl. now rewrite app_nil_r.
    + intuition.
  - destruct (IH _ (column_insert_sorted k' v _ Hs)) as (H1 & H2 & H3).
    split; [exact H1|]. split.
    + intros k. rewrite H2, (column_values_insert _ _ _ _ Hs).
      unfold Numeric.rows_of. simpl.
      destruct (Metrics.is_key cmp k k'); simpl.
      * now rewrite <- app_assoc.
      * reflexivity.
    + intros k. rewrite H3, column_insert_keys. intuition.
Qed.

Lemma column_groupby_facts (rows : list (K * V)) :
  StronglySorted (Metrics.keys_lt cmp) (Numeric.groupby cmp rows) /\
  (forall k vs, In (k, vs) (Numeric.groupby cmp rows) ->
                vs = Numeric.rows_of cmp k rows) /\
  (forall k, In k (map fst (Numeric.groupby cmp rows)) <-> In k (map fst rows)).
Proof.
  destruct (column_groupby_from rows [] (SSorted_nil _)) as (H1 & H2 & H3).
  split; [exact H1|]. split.
  - intros k vs Hin.
    rewrite <- (column_values_in _ _ _ H1 Hin). apply H2.
  - intros k. rewrite (H3 k). simpl. intuition.
Qed.

Lemma column_agg_sorted f (groups : list (K * list V)) :
  StronglySorted (Metrics.keys_lt cmp) groups ->
  StronglySorted (Metrics.keys_lt cmp) (Numeric.agg f groups).
Proof.
  induction 1 as [|g rest Hs IH Hall]; simpl; constructor; [assumption|].
  unfold Numeric.agg. apply Forall_map.
  eapply Forall_impl; [|exact Hall]. intros g' Hg. exact Hg.
Qed.

Lemma column_agg_in f (groups : list (K * list V)) k s :
  In (k, s) (Numeric.agg f groups) ->
  exists vs, In (k, vs) groups /\ s = f vs.
Proof.
  unfold Numeric.agg. intros H. apply in_map_iff in H.
  destruct H as ([k' vs] & Heq & Hin). simpl in Heq.
  injection Heq as <- <-. now exists vs.
Qed.

End ColumnGroupByFacts.

(** ** Aggregation by type *)

Lemma column_aggregate_groupby {V} (D : Numeric.Dtype V) df :
  Numeric.aggregate_by_type D df =
  Numeric.agg (Numeric.group_sum D)
    (Numeric.groupby String.compare
       (map (fun r => (Numeric.type r, Numeric.value r)) df)).
Proof. destruct df; reflexivity. Qed.

Lemma column_rows_of_category {V} c (df : list (Numeric.row V)) :
  Numeric.rows_of String.compare c
    (map (fun r => (Numeric.type r, Numeric.value r)) df) =
  Numeric.category_values c df.
Proof.
  unfold Numeric.rows_of, Numeric.category_values, Metrics.is_key.
  induction df as [|r df IH]; simpl; [reflexivity|].
  destruct (string_dec (Numeric.type r) c) as [<-|Hne].
  - rewrite (proj2 (string_compare_eq _ _) eq_refl). simpl. now rewrite IH.
  - destruct (String.compare c (Numeric.type r)) eqn:Hc; try exact IH.
    apply string_compare_eq in Hc. now subst c.
Qed.

Lemma column_aggregate_facts {V} (D : Numeric.Dtype V) df :
  StronglySorted (Metrics.keys_lt String.compare) (Numeric.aggregate_by_type D df) /\
  NoDup (map fst (Numeric.aggregate_by_type D df)) /\
  (forall c, In c (map fst (Numeric.aggregate_by_type D df)) <->
             In c (map Numeric.type df)) /\
  (forall c s, In (c, s) (Numeric.aggregate_by_type D df) ->
               s = Numeric.group_sum D (Numeric.category_values c df)).
Proof.
  rewrite column_aggregate_groupby.
  destruct (column_groupby_facts String.compare string_compare_eq
              String.compare_antisym string_compare_trans
              (map (fun r => (Numeric.type r, Numeric.value r)) df))
    as (Hs & Hv & Hk).
  assert (Hsorted := column_agg_sorted String.compare (Numeric.group_sum D) _ Hs).
  split; [exact Hsorted|]. split; [|split].
  - exact (sorted_keys_nodup String.compare _ string_compare_irrefl Hsorted).
  - intros c. unfold Numeric.agg. rewrite map_map. simpl.
    change (map (fun x : string * list V => fst x)
                (Numeric.groupby String.compare
                   (map (fun r => (Numeric.type r, Numeric.value r)) df)))
      with (map fst (Numeric.groupby String.compare
                       (map (fun r => (Numeric.type r, Numeric.value r)) df))).
    rewrite Hk, map_map. reflexivity.
  - intros c s Hin. apply column_agg_in in Hin. destruct Hin as (vs & Hin & ->).
    now rewrite (Hv _ _ Hin), column_rows_of_category.
Qed.

(** C7, as stated, fails in two ways.  On the frame of the package's test
    the categories first occur as Wind, Solar PV, and the aggregation
    returns Solar PV before Wind.  And on an integer column a sum beyond
    the [int64] range wraps around: two records of Wind with value [2^62]
    give Wind [-2^63], not [2^63]. *)
Lemma aggregate_order_and_wrap :
  Numeric.first_occurrence [] (map Numeric.type Numeric.wind_solar_frame)
  = ["Wind"; "Solar PV"] /\
  map fst (Numeric.aggregate_by_type Numeric.int64 Numeric.wind_solar_frame)
  = ["Solar PV"; "Wind"] /\
  Numeric.exact_sum (Numeric.category_values "Wind" Numeric.wrapping_wind_frame)
  = (2 ^ 63)%Z /\
  Numeric.aggregate_by_type Numeric.int64 Numeric.wrapping_wind_frame
  = [("Wind", (- 2 ^ 63)%Z)].
Proof. repeat split. Qed.

(** C7, amended.  The aggregation maps each distinct category of the frame
    to the sum of [value] over the records of that category, taken in row
    order and computed as the column computes it: its keys are the
    categories of the frame, each once.  On an integer column that sum is
    the exact sum reduced to 64 bits, hence the exact sum whenever this
    lies in the [int64] range.  The output is in ascending order of the
    category string, not in order of first occurrence; on the frame of the
    package's test it is Solar PV: 450, Wind: 250. *)
Theorem aggregate_by_type_sorted_column_sums :
  (forall (V : Type) (D : Numeric.Dtype V) (df : list (Numeric.row V)),
      StronglySorted (Metrics.keys_lt String.compare)
                     (Numeric.aggregate_by_type D df) /\
      NoDup (map fst (Numeric.aggregate_by_type D df)) /\
      (forall c, In c (map fst (Numeric.aggregate_by_type D df)) <->
                 In c (map Numeric.type df)) /\
      (forall c s, In (c, s) (Numeric.aggregate_by_type D df) ->
                   s = Numeric.group_sum D (Numeric.category_values c df))) /\
  (forall (df : list (Numeric.row Z)) c s,
      In (c, s) (Numeric.aggregate_by_type Numeric.int64 df) ->
      s = Numeric.wrap64 (Numeric.exact_sum (Numeric.category_values c df)) /\
      (Numeric.in_int64 (Numeric.exact_sum (Numeric.category_values c df)) ->
       s = Numeric.exact_sum (Numeric.category_values c df))) /\
  Numeric.aggregate_by_type Numeric.int64 Numeric.wind_solar_frame =
  [("Solar PV", 450%Z); ("Wind", 250%Z)].
Proof.
  split; [|split; [|reflexivity]].
  - intros V D df. apply column_aggregate_facts.
  - intros df c s Hin.
    destruct (column_aggregate_facts Numeric.int64 df) as (_ & _ & _ & Hv).
    rewrite (Hv _ _ Hin). cbn [Numeric.group_sum Numeric.int64].
    rewrite sum_int64_wrap. split; [reflexivity|].
    intros Hr. now apply wrap64_in_range.
Qed.

Lemma aggregate_by_type_sorted_column_sums_witness :
  250%Z = Numeric.exact_sum (Numeric.category_values "Wind" Numeric.wind_solar_frame).
Proof.
  apply (proj2 (proj1 (proj2 aggregate_by_type_sorted_column_sums)
                  Numeric.wind_solar_frame "Wind" 250%Z
                  (or_intror (or_introl eq_refl)))).
  unfold Numeric.in_int64. simpl. lia.
Defined.

(** ** The daily average and the conversion of the column *)






(** Two strings that each read as a date-time, in two layouts: the layout
    is inferred from the first, and the conversion raises on the second. *)
Lemma mixed_layouts_raise :
  Daily.calculate_daily_average Daily.to_datetime_inferred
    [Metrics.mkRow (Metrics.Text "2023-01-01T12:00:00") "Wind" 100;
     Metrics.mkRow (Metrics.Text "2023-01-01 18:00:00") "Wind" 200] = Raise ValueError.
Proof. reflexivity. Qed.
